(** * stocklook: the GDAX market maker's order engine

    A shallow embedding of [stocklook/crypto/gdax/feeds/market_maker.py]
    (classes [GdaxMMOrder] and [GdaxMarketMaker]) and the properties of
    its order-management engine.

    Conventions of the embedding.
    - Python floats are read as exact rationals ([Q]); [round(x, 2)] is
      [round2], rounding to the nearest hundredth with ties to even.
      The concrete runs below use prices and spreads for which binary
      floating point takes the same branches. Where a property turns
      on the last place of a float, the arithmetic is also given on
      binary64 ([Float64]).
    - [self._orders] and [self._fills] are insertion-ordered dicts: an
      association list with in-place update and append on a new key.
    - External collaborators (the REST client, the account, the book
      feed) are a record of answers, [Exchange], as a deterministic mock.
    - Methods that mutate the market maker are state transformers that
      also report how the call ended: a value, a raised exception, or a
      [while] loop that was still running when the fuel ran out. Only
      the [while] loops use fuel; loops over lists are structural.
    - Logging is left out.
    - An order's opposite is stored by value: after an order has been
      posted its price and size are never written again. *)

From Stdlib Require Import QArith Qround Qabs ZArith List String Bool Lia Lqa.
From Stdlib Require Import PrimFloat.
Import ListNotations.
Open Scope Q_scope.

(** ** Numbers *)

Definition Qlt_bool (x y : Q) : bool := negb (Qle_bool y x).

(** Python truthiness of a float: non-zero. *)
Definition truthy (x : Q) : bool := negb (Qeq_bool x 0).

(** Truthiness of an optional float ([None] is falsy). *)
Definition truthy_opt (x : option Q) : bool :=
  match x with
  | Some q => truthy q
  | None => false
  end.

Definition round_half_even (q : Q) : Z :=
  let f := Qfloor q in
  match Qcompare (q - inject_Z f) (1 # 2) with
  | Lt => f
  | Gt => (f + 1)%Z
  | Eq => if Z.even f then f else (f + 1)%Z
  end.

(** [round(q, 2)]. *)
Definition round2 (q : Q) : Q := inject_Z (round_half_even (q * 100)) / 100.

(** [x in l] on floats. *)
Definition Qmem (x : Q) (l : list Q) : bool := existsb (Qeq_bool x) l.

(** ['needle' in haystack] on strings. *)
Definition str_in (needle haystack : string) : bool :=
  match index 0 needle haystack with
  | Some _ => true
  | None => false
  end.

(** ** Orders *)

Inductive Side := buy | sell.

Definition Side_eqb (a b : Side) : bool :=
  match a, b with
  | buy, buy | sell, sell => true
  | _, _ => false
  end.

(** [GdaxMMOrder]: the fields of the exchange order that the engine
    reads, and [_op_order]. [o_id] is [None] until the order is posted. *)
#[warnings="-register-all"] Inductive Order : Type := GdaxMMOrder {
  o_id : option string;
  side : Side;
  price : Q;
  size : Q;
  op_order : option Order
}.

(** ** Dicts keyed by order id *)

Definition dict := list (string * Order).

Fixpoint dict_get (k : string) (d : dict) : option Order :=
  match d with
  | [] => None
  | (k', v) :: d' => if String.eqb k k' then Some v else dict_get k d'
  end.

Definition dict_remove (k : string) (d : dict) : dict :=
  filter (fun kv => negb (String.eqb k (fst kv))) d.

(** [d[k] = v]: an existing key keeps its position. *)
Fixpoint dict_set (k : string) (v : Order) (d : dict) : dict :=
  match d with
  | [] => [(k, v)]
  | (k', v') :: d' =>
      if String.eqb k k' then (k, v) :: d' else (k', v') :: dict_set k v d'
  end.

Definition keys (d : dict) : list string := map fst d.
Definition values (d : dict) : list Order := map snd d.

Definition str_mem (k : string) (l : list string) : bool :=
  existsb (String.eqb k) l.

(** ** Exceptions and outcomes *)

Inductive exn :=
| KeyError (k : string)
| AttributeError
| AssertionError
| IndexError
| ZeroDivisionError
| GdaxOrderCancellationError
| GdaxAPIError (msg : string)
| Exception (msg : string).

Inductive outcome (A : Type) :=
| Ret (a : A)
| Raise (e : exn)
| Diverge.
Arguments Ret {A} a.
Arguments Raise {A} e.
Arguments Diverge {A}.

(** ** The market maker and its collaborators *)

(** [GdaxMarketMaker]: configuration and mutable state.
    [_last_ticker] starts as an empty dict, here [None]. *)
Record MM := mkMM {
  max_spread : Q;
  min_spread : Q;
  stop_pct : Q;
  spend_pct : Q;
  max_open_buys : nat;
  max_open_sells : nat;
  manage_existing_orders : bool;
  aggressive : bool;
  _last_ticker : option Q;
  _orders : dict;
  _fills : dict
}.

Definition set_orders (m : MM) (d : dict) : MM :=
  mkMM (max_spread m) (min_spread m) (stop_pct m) (spend_pct m)
       (max_open_buys m) (max_open_sells m) (manage_existing_orders m)
       (aggressive m) (_last_ticker m) d (_fills m).

Definition set_fills (m : MM) (d : dict) : MM :=
  mkMM (max_spread m) (min_spread m) (stop_pct m) (spend_pct m)
       (max_open_buys m) (max_open_sells m) (manage_existing_orders m)
       (aggressive m) (_last_ticker m) (_orders m) d.

Definition set_last_ticker (m : MM) (t : option Q) : MM :=
  mkMM (max_spread m) (min_spread m) (stop_pct m) (spend_pct m)
       (max_open_buys m) (max_open_sells m) (manage_existing_orders m)
       (aggressive m) t (_orders m) (_fills m).

(** One row of [gdax.get_orders(status='open')]. *)
Record OrderData := mkOrderData {
  d_id : string;
  d_side : Side;
  d_price : Q;
  d_size : Q
}.

(** What the REST client, the account and the book feed answer.
    - [ex_cancel o]: [order.cancel()], the list it returns or the
      exception it raises;
    - [ex_post o]: [order.post()], the id the order has afterwards or
      the exception raised;
    - [ticker]: [book_feed.get_current_ticker()], [Some p] for a dict
      holding the price [p], [None] for no ticker;
    - [highest_bid], [lowest_ask]: the price at the top of each side of
      the cached book snapshot. *)
Record Exchange := mkExchange {
  get_orders : list OrderData;
  is_filled : Order -> bool;
  ex_cancel : Order -> exn + list (option string);
  ex_post : Order -> exn + option string;
  usd_balance : Q;
  ticker : option Q;
  highest_bid : Q;
  lowest_ask : Q
}.

(** State transformers over the market maker. *)
Definition M (A : Type) := MM -> MM * outcome A.

Definition ret {A} (a : A) : M A := fun m => (m, Ret a).
Definition raise {A} (e : exn) : M A := fun m => (m, Raise e).
Definition bind {A B} (c : M A) (f : A -> M B) : M B :=
  fun m =>
    match c m with
    | (m', Ret a) => f a m'
    | (m', Raise e) => (m', Raise e)
    | (m', Diverge) => (m', Diverge)
    end.
Definition get_mm : M MM := fun m => (m, Ret m).
Definition put_mm (m' : MM) : M unit := fun _ => (m', Ret tt).
(** Lift a computation that does not touch the state. *)
Definition lift {A} (r : outcome A) : M A := fun m => (m, r).

Notation "x <- c ;; k" := (bind c (fun x => k))
  (at level 61, c at next level, right associativity).
Notation "c ;;; k" := (bind c (fun _ => k))
  (at level 61, right associativity).

(** ** GdaxMMOrder: derived values and price adjustments *)

Section OrderMethods.

Variable E : Exchange.
Variable m : MM.

(** [buy_orders] and [sell_orders]: the tracked orders of one side. *)
Definition orders_of_side (s : Side) (d : dict) : dict :=
  filter (fun kv => Side_eqb (side (snd kv)) s) d.

Definition buy_orders : dict := orders_of_side buy (_orders m).
Definition sell_orders : dict := orders_of_side sell (_orders m).

(** The [stop_amount] property. *)
Definition stop_amount (o : Order) : option Q :=
  if negb (truthy (stop_pct m)) then None
  else match op_order o with
       | None => None
       | Some op =>
           match side o with
           | buy => None
           | sell => let op_price := price op in
                     Some (op_price - (op_price * stop_pct m))
           end
       end.

Definition get_amount_above_spread (o : Order) (spread bid ask : option Q) : Q :=
  let spread := match spread with Some s => s | None => max_spread m end in
  match side o with
  | sell =>
      let bid := match bid with Some b => b | None => highest_bid E end in
      let max_price := bid + spread in
      round2 (price o - max_price)
  | buy =>
      let ask := match ask with Some a => a | None => lowest_ask E end in
      let min_price := ask - spread in
      round2 (price o - min_price)
  end.

Definition get_pnl (o : Order) (price_arg : option Q) : option Q :=
  match op_order o with
  | Some op =>
      let price' := match price_arg with Some p => p | None => price o end in
      let '(buy_spend, sell_spend) :=
        match side o with
        | buy => (size o * price', size op * price op)
        | sell => (size op * price op, size o * price')
        end in
      Some (round2 (sell_spend - buy_spend))
  | None => None
  end.

(** [register_op_order]: the order with its opposite set, or the
    [AttributeError] for a same-side order that has no opposite. *)
Definition register_op_order (o order : Order) : exn + Order :=
  let o_side := side order in
  let my_side := side o in
  let o_op_order := op_order order in
  match Side_eqb o_side my_side, o_op_order with
  | true, Some _ =>
      inr (GdaxMMOrder (o_id o) (side o) (price o) (size o) o_op_order)
  | false, _ =>
      inr (GdaxMMOrder (o_id o) (side o) (price o) (size o) (Some order))
  | true, None => inl AttributeError
  end.

Definition get_price_adjusted_to_spread (o : Order) (spread : option Q)
    (aggressive : bool) (amount_above : option Q) (factor : Q)
    (min_profit : option Q) : Q :=
  let amount_above :=
    if negb (truthy_opt amount_above) then
      let spread :=
        if negb (truthy_opt spread) then
          Some (if aggressive then min_spread m else max_spread m)
        else spread in
      get_amount_above_spread o spread None None
    else match amount_above with Some a => a | None => 0 end in
  let price' :=
    if truthy amount_above then round2 (price o - (amount_above * factor))
    else round2 (price o) in
  match op_order o, min_profit with
  | Some op, Some min_profit =>
      let min_price := price op + min_profit in
      if Qlt_bool price' min_price then min_price else price'
  | _, _ => price'
  end.

(** The loop of the inner function [adj_price]; [check_p] is the list
    the loop tests. Both arms of [if increment] add [step]. *)
Fixpoint adj_price_loop (fuel : nat) (other_prices : list Q) (step : Q)
    (increment : bool) (p : Q) (check_p : list Q) : outcome Q :=
  match check_p with
  | [] => Ret p
  | _ :: _ =>
      match fuel with
      | O => Diverge
      | S fuel' =>
          let p := if increment then p + step else p + step in
          let p := round2 p in
          let max_p := p + (step * 2) in
          let min_p := p - (step * 2) in
          let check_p :=
            filter (fun x => Qle_bool min_p x && Qle_bool x max_p)
                   other_prices in
          adj_price_loop fuel' other_prices step increment p check_p
      end
  end.

Definition adj_price (fuel : nat) (other_prices : list Q) (step : Q)
    (p : Q) (increment : bool) : outcome Q :=
  let max_p := p + (step * 2) in
  let min_p := p - (step * 2) in
  let check_p :=
    filter (fun x => Qlt_bool min_p x && Qlt_bool x max_p) other_prices in
  let p := round2 p in
  adj_price_loop fuel other_prices step increment p check_p.

(** [min] and [max] of a non-empty list of floats. *)
Definition Qmin_list (x : Q) (l : list Q) : Q :=
  fold_left (fun a b => if Qlt_bool b a then b else a) l x.
Definition Qmax_list (x : Q) (l : list Q) : Q :=
  fold_left (fun a b => if Qlt_bool a b then b else a) l x.

(** Insertion sort, standing for [sorted] on the prices. *)
Fixpoint insert_sorted (x : Q) (l : list Q) : list Q :=
  match l with
  | [] => [x]
  | y :: l' => if Qlt_bool x y then x :: l else y :: insert_sorted x l'
  end.
Definition sorted (l : list Q) : list Q := fold_right insert_sorted [] l.

(** The prices the candidate is compared with: the argument, or by
    default the prices of the tracked buy orders (the source reads
    [buy_orders] on both sides), without the order's own price. *)
Definition peer_prices (o : Order) (other_prices : option (list Q)) : list Q :=
  let other_prices :=
    match other_prices with
    | Some l => l
    | None =>
        let others :=
          match side o with
          | buy => values buy_orders
          | sell => values buy_orders
          end in
        sorted (map price others)
    end in
  filter (fun p => negb (Qeq_bool p (price o))) other_prices.

Definition get_price_adjusted_to_other_prices (fuel : nat) (o : Order)
    (other_prices : option (list Q)) (aggressive : bool) (step : Q)
    (min_profit : option Q) : outcome Q :=
  let other_prices := peer_prices o other_prices in
  let my_min :=
    get_price_adjusted_to_spread o None aggressive None (8 # 10) min_profit in
  match other_prices with
  | [] => Ret my_min
  | x :: rest =>
      let min_price := Qmin_list x rest in
      let max_price := Qmax_list x rest in
      let max_and_step := max_price + step in
      let min_and_step := min_price - step in
      match side o with
      | buy =>
          if aggressive then
            if Qle_bool max_and_step my_min
            then adj_price fuel other_prices step my_min true
            else adj_price fuel other_prices step my_min true
          else adj_price fuel other_prices step my_min false
      | sell =>
          if aggressive then
            if Qle_bool min_and_step my_min
            then adj_price fuel other_prices step my_min false
            else adj_price fuel other_prices step my_min true
          else adj_price fuel other_prices step my_min true
      end
  end.

(** The loop of [get_price_adjusted_to_profit_target]: [pnl] is not
    recomputed inside the loop. *)
Fixpoint profit_target_loop (fuel : nat) (pnl min_profit price : Q)
    : outcome Q :=
  if Qlt_bool pnl min_profit then
    match fuel with
    | O => Diverge
    | S fuel' => profit_target_loop fuel' pnl min_profit (price + (1 # 100))
    end
  else Ret price.

Definition get_price_adjusted_to_profit_target (fuel : nat) (o : Order)
    (min_profit : Q) : outcome Q :=
  let price' := price o in
  match get_pnl o (Some price') with
  | None => Ret (price o)
  | Some pnl => profit_target_loop fuel pnl min_profit price'
  end.

Definition get_other_order_prices (s : Side) : list Q :=
  map (fun o => round2 (price o))
      (filter (fun o => Side_eqb (side o) s) (values (_orders m))).

(** The loop [while price in o_prices] of the ticker adjustment. *)
Fixpoint ticker_loop (fuel : nat) (s : Side) (o_prices : list Q)
    (spread_add price : Q) : outcome Q :=
  if Qmem price o_prices then
    match fuel with
    | O => Diverge
    | S fuel' =>
        let price :=
          match s with
          | buy => price - spread_add
          | sell => price + spread_add
          end in
        ticker_loop fuel' s o_prices spread_add price
    end
  else Ret price.

(** [ticker_arg] is [None] for the default: the feed's current ticker.
    [adjust_vs_open] is accepted and not read, as in the source. *)
Definition get_price_adjusted_to_ticker (fuel : nat) (o : Order)
    (price_arg : option Q) (ticker_arg : option Q) (aggressive : bool)
    (adjust_vs_open : bool) : outcome Q :=
  let ticker := match ticker_arg with Some t => Some t | None => ticker E end in
  let price' := match price_arg with Some p => p | None => price o end in
  let spread := if aggressive then min_spread m else max_spread m in
  let price' :=
    match ticker with
    | Some ticker_price =>
        match side o with
        | buy =>
            if Qle_bool (ticker_price - spread) price'
            then ticker_price - spread else price'
        | sell =>
            if Qle_bool price' (ticker_price + spread)
            then ticker_price + spread else price'
        end
    | None => price'
    end in
  let o_prices := get_other_order_prices (side o) in
  let spread_add := round2 (spread / 2) in
  ticker_loop fuel (side o) o_prices spread_add price'.

(** [position_size]; dividing by a zero ask raises. *)
Definition position_size : outcome Q :=
  let balance := usd_balance E in
  let bid := lowest_ask E in
  let spend_avail := balance * spend_pct m in
  if Qeq_bool bid 0 then Raise ZeroDivisionError
  else
    let size_avail := spend_avail / bid in
    let buy_orders := List.length buy_orders in
    let sells_open := List.length sell_orders in
    if Qlt_bool (1 # 100) size_avail
       && (buy_orders <? max_open_buys m)%nat
       && (sells_open <? max_open_sells m)%nat
    then Ret size_avail
    else Ret 0.

End OrderMethods.

(** ** GdaxMarketMaker: placing, filling, cancelling, shifting *)

Section MarketMaker.

Variable E : Exchange.

Definition set_price (o : Order) (p : Q) : Order :=
  GdaxMMOrder (o_id o) (side o) p (size o) (op_order o).

Definition set_id (o : Order) (i : option string) : Order :=
  GdaxMMOrder i (side o) (price o) (size o) (op_order o).

(** The size-cap step of [place_order]: [None] stands for the early
    [return None], otherwise the size to order. *)
Definition checked_size (check_size : bool) (s : Side) (size : Q)
    : M (option Q) :=
  if check_size && Side_eqb s buy then
    m <- get_mm ;;
    pos_size <- lift (position_size E m) ;;
    if Qlt_bool pos_size (1 # 100) then ret None
    else if Qlt_bool pos_size size then ret (Some pos_size)
    else ret (Some size)
  else ret (Some size).

(** [place_order]. The [adjust_vs_wall] step reads [lowest_open_order]
    and changes nothing (its body is [pass]). The new order gets
    [op_order] through the constructor, which stores it as it is. *)
Definition place_order (fuel : nat) (price size : Q) (side : Side)
    (op_order : option Order)
    (adjust_vs_open adjust_vs_wall check_size check_ticker aggressive : bool)
    : M (option Order) :=
  sz <- checked_size check_size side size ;;
  match sz with
  | None => ret None
  | Some size =>
      m <- get_mm ;;
      let order := GdaxMMOrder None side price size op_order in
      order <-
        (if adjust_vs_open then
           open_price <- lift (get_price_adjusted_to_other_prices E m fuel order
                                 None aggressive (round2 (max_spread m / 2))
                                 (Some (min_spread m))) ;;
           ret (if truthy open_price then set_price order open_price else order)
         else ret order) ;;
      order <-
        (if check_ticker then
           tick_price <- lift (get_price_adjusted_to_ticker E m fuel order
                                 None None aggressive true) ;;
           ret (if truthy tick_price then set_price order tick_price else order)
         else ret order) ;;
      match ex_post E order with
      | inl e => raise e
      | inr None => raise AssertionError
      | inr (Some i) =>
          let order := set_id order (Some i) in
          m <- get_mm ;;
          put_mm (set_orders m (dict_set i order (_orders m))) ;;;
          ret (Some order)
      end
  end.

(** [handle_fill]: pop, test [is_filled], record the fill, replace. *)
Definition handle_fill (fuel : nat) (order_id : string) (replace : bool)
    : M (option Order) :=
  m <- get_mm ;;
  match dict_get order_id (_orders m) with
  | None => raise (KeyError order_id)
  | Some order =>
      put_mm (set_orders m (dict_remove order_id (_orders m))) ;;;
      if negb (is_filled E order) then raise (Exception "Order is not filled.")
      else
        m <- get_mm ;;
        put_mm (set_fills m (dict_set order_id order (_fills m))) ;;;
        if replace then
          m <- get_mm ;;
          let buy_orders := buy_orders m in
          let sell_orders := sell_orders m in
          let spread := if aggressive m then min_spread m else max_spread m in
          let '(maxed, new_side, new_price) :=
            match side order with
            | buy => (false, sell, price order + spread)
            | sell =>
                ((max_open_buys m <? List.length buy_orders)%nat
                 || (max_open_sells m <? List.length sell_orders)%nat,
                 buy, price order - spread)
            end in
          if negb maxed then
            place_order fuel new_price (size order) new_side (Some order)
                        true true true true (aggressive m)
          else ret None
        else ret None
  end.

(** [cancel_order]. [pop(order_id, None)] gives [None] for an unknown
    id, and calling [cancel] on it is the [AttributeError]. *)
Definition cancel_order (fuel : nat) (order_id : string) : M (option Order) :=
  m <- get_mm ;;
  let order := dict_get order_id (_orders m) in
  put_mm (set_orders m (dict_remove order_id (_orders m))) ;;;
  match order with
  | None => raise AttributeError
  | Some o =>
      match ex_cancel E o with
      | inr check =>
          match check with
          | [] => raise IndexError
          | c :: _ =>
              match c with
              | None => ret order
              | Some i =>
                  if String.eqb i order_id then ret order
                  else raise AssertionError
              end
          end
      | inl (GdaxAPIError msg) =>
          if str_in "done" msg then
            m <- get_mm ;;
            put_mm (set_orders m (dict_set order_id o (_orders m))) ;;;
            handle_fill fuel order_id true ;;;
            ret order
          else if str_in "not found" msg then ret order
          else raise (GdaxAPIError msg)
      | inl e => raise e
      end
  end.

(** Run [f] on each element in turn, stopping at the first failure. *)
Fixpoint for_each {A} (f : A -> M unit) (l : list A) : M unit :=
  match l with
  | [] => ret tt
  | a :: l' => f a ;;; for_each f l'
  end.

(** The [orders] property: reconcile the registry with the exchange's
    listing of open orders and return it. *)
Definition orders (fuel : nat) : M dict :=
  let open_orders := get_orders E in
  let open_ids := map d_id open_orders in
  m <- get_mm ;;
  let filled :=
    filter (fun o_id => negb (str_mem o_id open_ids)) (keys (_orders m)) in
  for_each (fun o => handle_fill fuel o true ;;; ret tt) filled ;;;
  m <- get_mm ;;
  (if manage_existing_orders m then
     let new_keys :=
       map d_id
           (filter (fun o => negb (str_mem (d_id o) (keys (_orders m))))
                   open_orders) in
     for_each
       (fun o_data =>
          if negb (str_mem (d_id o_data) new_keys) then ret tt
          else
            let o := GdaxMMOrder (Some (d_id o_data)) (d_side o_data)
                                 (d_price o_data) (d_size o_data) None in
            m <- get_mm ;;
            put_mm (set_orders m (dict_set (d_id o_data) o (_orders m))))
       open_orders
   else ret tt) ;;;
  m <- get_mm ;;
  ret (_orders m).

(** What one pass of the loop of [shift_orders] accumulates. *)
Record ShiftAcc := mkShiftAcc {
  cancels : list (string * Q);
  new_orders : list (option Order)
}.

(** [self.cancel_order(order.id)]: with no id on the order the pop
    finds nothing and [cancel] is called on [None]. *)
Definition cancel_order_of (fuel : nat) (o : Order) : M (option Order) :=
  match o_id o with
  | Some i => cancel_order fuel i
  | None => raise AttributeError
  end.

(** The body of the loop of [shift_orders] for one tracked order. *)
Definition shift_one (fuel : nat) (exclude : list string) (p spread : Q)
    (acc : ShiftAcc) (order_id : string) (order : Order) : M ShiftAcc :=
  if str_mem order_id exclude then ret acc
  else
    m <- get_mm ;;
    let stopped :=
      match side order with
      | sell => let stop := stop_amount m order in
                truthy_opt stop
                && match stop with Some s => Qle_bool p s | None => false end
      | buy => false
      end in
    if stopped then
      ret (mkShiftAcc (cancels acc ++ [(order_id, p + (1 # 100))])
                      (new_orders acc))
    else
      let min_price :=
        get_price_adjusted_to_spread E m order None true None (8 # 10)
                                     (Some spread) in
      let max_price :=
        get_price_adjusted_to_spread E m order None false None (8 # 10)
                                     (Some spread) in
      let min_diff := round2 (price order - min_price) in
      let max_diff := round2 (max_price - price order) in
      check_price <- lift (get_price_adjusted_to_other_prices E m fuel order
                             None (aggressive m) (round2 (spread / 2))
                             (Some (1 # 100))) ;;
      match side order with
      | buy =>
          if Qlt_bool spread max_diff && Qlt_bool (price order) check_price
          then
            cancel_order_of fuel order ;;;
            new_order <- place_order fuel check_price (size order) (side order)
                           (Some order) false true true true true ;;
            ret (mkShiftAcc (cancels acc) (new_orders acc ++ [new_order]))
          else ret acc
      | sell =>
          let stop := stop_amount m order in
          let stop_sell := round2 (p + (spread / 2)) in
          if truthy_opt stop
             && match stop with Some s => Qle_bool p s | None => false end
             && Qlt_bool stop_sell (price order)
          then
            cancel_order_of fuel order ;;;
            new_order <- place_order fuel stop_sell (size order) (side order)
                           (Some order) false true false true true ;;
            ret (mkShiftAcc (cancels acc) (new_orders acc ++ [new_order]))
          else if Qlt_bool min_price (price order)
                  && Qlt_bool check_price (price order)
          then
            cancel_order_of fuel order ;;;
            new_order <- place_order fuel check_price (size order) (side order)
                           (Some order) false true true true true ;;
            ret (mkShiftAcc (cancels acc) (new_orders acc ++ [new_order]))
          else ret acc
      end.

Fixpoint shift_loop (fuel : nat) (exclude : list string) (p spread : Q)
    (acc : ShiftAcc) (items : dict) : M ShiftAcc :=
  match items with
  | [] => ret acc
  | (order_id, order) :: items' =>
      acc' <- shift_one fuel exclude p spread acc order_id order ;;
      shift_loop fuel exclude p spread acc' items'
  end.

(** [shift_orders]; [snap] is not read by the source and is left out.
    The list [cancels] is filled and never read. *)
Definition shift_orders (fuel : nat) (exclude : option (list string))
    : M (option (list (option Order))) :=
  orders <- orders fuel ;;
  match orders with
  | [] => ret None
  | _ :: _ =>
      let exclude := match exclude with Some l => l | None => [] end in
      let p := match ticker E with Some t => t | None => 0 end in
      m <- get_mm ;;
      if negb (truthy_opt (_last_ticker m)) && Qlt_bool 0 p then
        put_mm (set_last_ticker m (Some p)) ;;;
        ret (Some [])
      else if negb (match _last_ticker m with
                    | Some t => Qeq_bool t p
                    | None => false
                    end)
              && Qlt_bool 0 p
      then
        put_mm (set_last_ticker m (Some p)) ;;;
        let spread := if aggressive m then min_spread m else max_spread m in
        m <- get_mm ;;
        acc <- shift_loop fuel exclude p spread (mkShiftAcc [] [])
                          (_orders m) ;;
        ret (Some (new_orders acc))
      else ret (Some [])
  end.

End MarketMaker.

(** ** The stop amount on binary64 *)

Module Float64.

#[local] Set Warnings "-inexact-float".

(** The [stop_amount] property on the floats of the source, with every
    operation rounded to binary64. [stop_pct] is [self.m.stop_pct], [s]
    is [self.side] and [op_price] is the price of [self.op_order], when
    there is one. [not stop_pct] holds of both zeros and not of a NaN,
    as [PrimFloat.eqb _ 0] does. *)
Definition stop_amount (stop_pct : float) (s : Side) (op_price : option float)
    : option float :=
  if PrimFloat.eqb stop_pct 0 then None
  else match op_price with
       | None => None
       | Some op_price =>
           match s with
           | buy => None
           | sell => Some (op_price - (op_price * stop_pct))%float
           end
       end.

(** The literals [0.05], [0.1] and [300.4] of a configuration file: the
    nearest binary64 values, as Python reads them. *)
Definition five_percent : float := 0.05%float.
Definition ten_percent : float := 0.1%float.
Definition price_300_40 : float := 300.4%float.

End Float64.

(** ** Vocabulary of the properties *)

(** A price is on the grid when rounding leaves it as it is. *)
Definition two_decimals (q : Q) : Prop := round2 q == q.

(** Peers at or below a price: what the buy loop of the ticker
    adjustment still has to step over. *)
Definition peers_at_or_below (o_prices : list Q) (p : Q) : nat :=
  List.length (filter (fun x => Qle_bool x p) o_prices).

(** Every tracked order is paired with an order of the other side. *)
Definition opposite_sides (o : Order) : Prop :=
  match op_order o with
  | None => True
  | Some op => side op <> side o
  end.

Definition registry_paired (m : MM) : Prop :=
  forall k o, dict_get k (_orders m) = Some o -> opposite_sides o.

(** ** Scenarios on a mock exchange *)

Open Scope string_scope.

(** A buy filled at 300.00 and the sell at 305.00 that followed it. *)
Definition filled_buy : Order :=
  GdaxMMOrder (Some "b-0") buy 300 1 None.
Definition open_sell : Order :=
  GdaxMMOrder (Some "s-1") sell 305 1 (Some filled_buy).

Definition open_buy (i : string) (p : Q) : Order :=
  GdaxMMOrder (Some i) buy p 1 None.

Definition data_of (i : string) (o : Order) : OrderData :=
  mkOrderData i (side o) (price o) (size o).

(** [cancel] answers of the mock: accepted, or reported "not found". *)
Definition cancel_accepted (o : Order) : exn + list (option string) :=
  inr [o_id o].
Definition cancel_not_found (o : Order) : exn + list (option string) :=
  inl (GdaxAPIError "order not found").

(** The mock lists every tracked order of [d] as open and posts a new
    order under the id ["n-1"]. *)
Definition mock_exchange (d : dict) (filled : bool)
    (cancel : Order -> exn + list (option string)) (tick bid ask : Q)
    : Exchange :=
  mkExchange (map (fun kv => data_of (fst kv) (snd kv)) d)
             (fun _ => filled)
             cancel
             (fun _ => inr (Some "n-1"))
             10000 (Some tick) bid ask.

Definition config (buys : nat) (last : option Q) (d : dict) : MM :=
  mkMM 1 (1 # 2) (5 # 100) (1 # 100) buys 12 false true last d [].

(** One tracked sell, opened after the buy at 300.00 filled. *)
Definition one_sell : dict := [("s-1", open_sell)].

(** Stop trigger: [stop_pct = 0.05] puts the stop of the sell at 285.00;
    the ticker moves from 290.00 to 284.50. *)
Definition stop_mm : MM := config 6 (Some 290) one_sell.
Definition stop_exchange : Exchange :=
  mock_exchange one_sell false cancel_accepted (569 # 2) (2844 # 10) (2846 # 10).

(** Reprice: the ticker moves from 302.00 to 301.00 with the best bid
    at 300.50, and the sell at 305.00 is moved down. *)
Definition reprice_mm : MM := config 6 (Some 302) one_sell.
Definition reprice_exchange : Exchange :=
  mock_exchange one_sell false cancel_accepted 301 (3005 # 10) (3015 # 10).

(** A sell at the price and size of the buy it follows: the PnL is 0. *)
Definition breakeven_sell : Order :=
  GdaxMMOrder (Some "s-2") sell 300 1 (Some filled_buy).

(** The exchange has lost the sell: every cancel is "not found". *)
Definition gone_exchange : Exchange :=
  mock_exchange one_sell false cancel_not_found 301 (3005 # 10) (3015 # 10).

(** An empty registry, spreads 0.50 and 1.00, the lowest ask at 300.50. *)
Definition empty_mm : MM := config 6 None [].
Definition quiet_exchange : Exchange :=
  mock_exchange [] false cancel_accepted 300 (2995 # 10) (3005 # 10).

(** A buy about to be placed at 300.00. *)
Definition new_buy : Order := GdaxMMOrder None buy 300 1 None.

(** No stop configured, and a sell without opposite. *)
Definition no_stop_mm : MM :=
  mkMM 1 (1 # 2) 0 (1 # 100) 6 12 false true None one_sell [].

Definition lone_sell : Order := GdaxMMOrder (Some "s-3") sell 305 1 None.

(** Three buys open under [max_open_buys = 3], and the sell filled. *)
Definition capped_orders : dict :=
  [("s-1", open_sell); ("b-1", open_buy "b-1" 299);
   ("b-2", open_buy "b-2" 298); ("b-3", open_buy "b-3" 297)].
Definition capped_mm : MM := config 3 (Some 302) capped_orders.
Definition capped_exchange : Exchange :=
  mock_exchange capped_orders true cancel_accepted 301 (3005 # 10) (3015 # 10).

(** One buy tracked at 299.50, where the ticker adjustment would land. *)
Definition one_buy : dict := [("b-1", open_buy "b-1" (599 # 2))].
Definition buy_mm : MM := config 6 None one_buy.
Definition buy_exchange : Exchange :=
  mock_exchange one_buy false cancel_accepted 300 (2995 # 10) (3005 # 10).


(** ** More of the engine: the cheapest order and the wall *)

(** The [lowest_open_order] property: [min(orders, key=price)], the
    first of the cheapest tracked orders, [None] on an empty registry. *)
Definition lowest_open_order (m : MM) : option Order :=
  match values (_orders m) with
  | [] => None
  | o :: rest =>
      Some (fold_left
              (fun best x => if Qlt_bool (price x) (price best) then x else best)
              rest o)
  end.

(** One level of a side of the book: [contents[0]] is the price and
    [contents[1]] the size. *)
Definition Level : Type := (Q * Q)%type.

(** The two sides of a [BookSnapshot], best level first. *)
Record BookSnapshot := mkBookSnapshot {
  bids : list Level;
  asks : list Level
}.

(** The scan of [get_price_adjusted_to_wall] from index [idx] on. *)
Fixpoint wall_loop (s : Side) (idx min_idx : nat) (wall_size bump_value : Q)
    (data : list Level) : option Q :=
  match data with
  | [] => None
  | contents :: data' =>
      if Qle_bool wall_size (snd contents) && (min_idx <=? idx)%nat then
        match s with
        | buy => Some (fst contents + bump_value)
        | sell => Some (fst contents - bump_value)
        end
      else wall_loop s (S idx) min_idx wall_size bump_value data'
  end.

(** [get_price_adjusted_to_wall]; falling off the loop returns [None]. *)
Definition get_price_adjusted_to_wall (snap : BookSnapshot) (o : Order)
    (min_idx : nat) (wall_size bump_value : Q) : option Q :=
  let data := match side o with buy => bids snap | sell => asks snap end in
  wall_loop (side o) 0 min_idx wall_size bump_value data.

(** ** More scenarios *)

(** One buy tracked at 300.50; then a second one at 299.75. *)
Definition peer_buy_mm : MM :=
  config 6 None [("b-4", open_buy "b-4" (601 # 2))].
Definition two_peers_mm : MM :=
  config 6 None [("b-4", open_buy "b-4" (601 # 2));
                 ("b-5", open_buy "b-5" (1199 # 4))].

(** One sell tracked at 300.25, and a sell about to be placed at
    300.00, where the highest bid of [quiet_exchange] plus the spread
    is. *)
Definition peer_sell : Order := GdaxMMOrder (Some "s-4") sell (1201 # 4) 1 None.
Definition peer_sell_mm : MM := config 6 None [("s-4", peer_sell)].
Definition new_sell : Order := GdaxMMOrder None sell 300 1 None.


(** What a run answered, for reading scenarios. *)
Definition returned {A} (r : outcome A) (default : A) : A :=
  match r with
  | Ret a => a
  | _ => default
  end.

Definition placed (r : outcome (option Order)) : Order :=
  match r with
  | Ret (Some o) => o
  | _ => new_buy
  end.

(** The exchange reports every order filled and lists none as open. *)
Definition fill_exchange : Exchange :=
  mock_exchange [] true cancel_accepted 300 (2995 # 10) (3005 # 10).

(** The exchange rejects every cancel. *)
Definition cancel_rejected (o : Order) : exn + list (option string) :=
  inl GdaxOrderCancellationError.
Definition rejecting_exchange : Exchange :=
  mock_exchange one_sell false cancel_rejected 301 (3005 # 10) (3015 # 10).

(** The exchange answers every cancel with "done", the order having
    filled. *)
Definition cancel_done (o : Order) : exn + list (option string) :=
  inl (GdaxAPIError "order already done").
Definition done_exchange : Exchange :=
  mock_exchange one_sell true cancel_done 301 (3005 # 10) (3015 # 10).

(** The book feed has no ticker yet. *)
Definition silent_exchange : Exchange :=
  mkExchange [] (fun _ => false) cancel_accepted (fun _ => inr (Some "n-1"))
             10000 None (2995 # 10) (3005 # 10).

(** Spreads of 0.004 and 0.008: half of either rounds to 0. *)
Definition thin_mm : MM :=
  mkMM (8 # 1000) (4 # 1000) (5 # 100) (1 # 100) 6 12 false true None
       one_buy [].

(** The tracked sell, with the ticker of the reprice scenario already
    seen. *)
Definition idle_mm : MM := config 6 (Some 301) one_sell.

(** A maker that adopts the orders of the account, and an account with
    one more open order than the maker tracks. *)
Definition adopting_mm : MM :=
  mkMM 1 (1 # 2) (5 # 100) (1 # 100) 6 12 true true None one_sell [].
Definition listing_exchange : Exchange :=
  mock_exchange (one_sell ++ [("x-9", open_buy "x-9" 299)])%list false
                cancel_accepted 301 (3005 # 10) (3015 # 10).

(** The bids of a book with a wall of 60 at the fourth level. *)
Definition walled_book : BookSnapshot :=
  mkBookSnapshot
    [(29995 # 100, 1 # 2); (29990 # 100, 2); (29985 # 100, 5);
     (29980 # 100, 60)]
    [(300, 1)].

(** ** More vocabulary *)

(** Every tracked order is filed under its own id. *)
Definition registry_keyed (m : MM) : Prop :=
  forall k o, dict_get k (_orders m) = Some o -> o_id o = Some k.

(** A computation keeps [P] when [P] holds of the state it leaves,
    however it ends. *)
Definition keeps {A} (P : MM -> Prop) (c : M A) : Prop :=
  forall m, P m -> P (fst (c m)).

(** The configuration of [m'] is the one of [m]. *)
Definition same_config (m m' : MM) : Prop :=
  max_spread m' = max_spread m /\ min_spread m' = min_spread m
  /\ stop_pct m' = stop_pct m /\ spend_pct m' = spend_pct m
  /\ max_open_buys m' = max_open_buys m
  /\ max_open_sells m' = max_open_sells m
  /\ manage_existing_orders m' = manage_existing_orders m
  /\ aggressive m' = aggressive m.

(** Every fill recorded in [m] is still recorded in [m']. *)
Definition fills_kept (m m' : MM) : Prop :=
  forall k, dict_get k (_fills m) <> None -> dict_get k (_fills m') <> None.

(** ** Proof steps for the state transformers *)

Ltac run_m := unfold bind, lift, get_mm, put_mm, ret, raise.

(** Case analysis on the two price adjustments of [place_order] and on
    the answer to the post. *)
Ltac adjust_cases :=
  repeat match goal with
         | |- context [get_price_adjusted_to_other_prices ?a ?b ?c ?d ?e ?f ?g ?h] =>
             destruct (get_price_adjusted_to_other_prices a b c d e f g h)
               as [?r| |]; try discriminate;
             match goal with |- context [truthy ?x] => destruct (truthy x) end;
             simpl
         | |- context [get_price_adjusted_to_ticker ?a ?b ?c ?d ?e ?f ?g ?h] =>
             destruct (get_price_adjusted_to_ticker a b c d e f g h)
               as [?t| |]; try discriminate;
             match goal with |- context [truthy ?x] => destruct (truthy x) end;
             simpl
         end;
  match goal with
  | |- context [ex_post ?E ?o] =>
      destruct (ex_post E o) as [?e|[?i|]]; try discriminate
  end.

(** ** Facts about numbers and dicts *)

Lemma Qlt_bool_iff (x y : Q) : Qlt_bool x y = true <-> x < y.
Proof.
  unfold Qlt_bool. rewrite negb_true_iff. split; intros H.
  - apply Qnot_le_lt. intros Hle. apply Qle_bool_iff in Hle. congruence.
  - destruct (Qle_bool y x) eqn:Hb; [|reflexivity].
    apply Qle_bool_iff in Hb. lra.
Qed.

Lemma Qlt_bool_false_iff (x y : Q) : Qlt_bool x y = false <-> y <= x.
Proof.
  unfold Qlt_bool. rewrite negb_false_iff. apply Qle_bool_iff.
Qed.

Lemma Qle_bool_false_iff (x y : Q) : Qle_bool x y = false <-> y < x.
Proof.
  split; intros H.
  - apply Qnot_le_lt. intros Hle. apply Qle_bool_iff in Hle. congruence.
  - destruct (Qle_bool x y) eqn:Hb; [|reflexivity].
    apply Qle_bool_iff in Hb. lra.
Qed.

Lemma truthy_pos (x : Q) : 0 < x -> truthy x = true.
Proof.
  intros H. unfold truthy. destruct (Qeq_bool x 0) eqn:Hb; [|reflexivity].
  apply Qeq_bool_iff in Hb. lra.
Qed.

Lemma truthy_zero (x : Q) : x == 0 -> truthy x = false.
Proof.
  intros H. unfold truthy. apply Qeq_bool_iff in H. now rewrite H.
Qed.

Lemma dict_get_remove (k : string) (d : dict) :
  dict_get k (dict_remove k d) = None.
Proof.
  induction d as [|[k' v] d IH]; simpl; [reflexivity|].
  destruct (String.eqb k k') eqn:Hk; simpl; [exact IH|].
  now rewrite Hk.
Qed.

Lemma dict_remove_absent (k : string) (d : dict) :
  dict_get k d = None -> dict_remove k d = d.
Proof.
  induction d as [|[k' v] d IH]; simpl; [reflexivity|].
  destruct (String.eqb k k') eqn:Hk; simpl; [discriminate|].
  intros H. now rewrite IH.
Qed.

Lemma dict_remove_not_in (k : string) (d : dict) :
  ~ In k (keys d) -> dict_remove k d = d.
Proof.
  induction d as [|[k' v] d IH]; simpl; [reflexivity|].
  intros H. destruct (String.eqb_spec k k') as [->|Hne]; simpl.
  - exfalso. apply H. now left.
  - rewrite IH; [reflexivity|]. intros Hin. apply H. now right.
Qed.

(** Removing a sell order leaves the tracked buy orders as they were. *)
Lemma buys_after_removing_sell (k : string) (d : dict) (o : Order) :
  NoDup (keys d) -> dict_get k d = Some o -> side o = sell ->
  orders_of_side buy (dict_remove k d) = orders_of_side buy d.
Proof.
  induction d as [|[k' v] d IH]; simpl; [discriminate|].
  intros Hnd Hget Hside. inversion Hnd as [|? ? Hnotin Hnd']; subst.
  destruct (String.eqb_spec k k') as [->|Hne]; simpl.
  - injection Hget as ->. rewrite Hside. simpl.
    now rewrite dict_remove_not_in.
  - now rewrite IH.
Qed.

Lemma dict_set_absent_length (k : string) (v : Order) (d : dict) :
  dict_get k d = None -> List.length (dict_set k v d) = S (List.length d).
Proof.
  induction d as [|[k' v'] d IH]; simpl; [reflexivity|].
  destruct (String.eqb k k'); [discriminate|].
  intros H. simpl. now rewrite IH.
Qed.

(** ** The stop amount *)

(** C8 (as amended). On the floats of the source a sell order with an
    opposite, under a [stop_pct] that is not zero, has
    [stop_amount = opposite.price - opposite.price * stop_pct], the
    product and the difference each rounded to binary64. And
    [stop_amount] is [None] exactly for a buy order, for an order
    without opposite and under a zero [stop_pct]. *)
Theorem stop_amount_spec (stop_pct : float) (s : Side)
    (op_price : option float) :
  (forall p, PrimFloat.eqb stop_pct 0 = false -> s = sell ->
             op_price = Some p ->
             Float64.stop_amount stop_pct s op_price
             = Some (p - p * stop_pct)%float)
  /\ (Float64.stop_amount stop_pct s op_price = None
      <-> PrimFloat.eqb stop_pct 0 = true \/ s = buy \/ op_price = None).
Proof.
  unfold Float64.stop_amount. split.
  - intros p Hpct -> ->. now rewrite Hpct.
  - destruct (PrimFloat.eqb stop_pct 0); [tauto|].
    destruct op_price as [p|]; [|tauto].
    destruct s; [tauto|]. split; [discriminate|].
    intros [H|[H|H]]; discriminate.
Qed.

(** ** Failed and capped fills *)

(** C10. [handle_fill] on a tracked order that the exchange does not
    report as filled raises, with the order already popped from the
    registry and the fills table not yet written: the order is then in
    neither table. *)
Theorem handle_fill_not_filled_raises (E : Exchange) (fuel : nat) (m : MM)
    (order_id : string) (order : Order) (replace : bool) :
  dict_get order_id (_orders m) = Some order ->
  is_filled E order = false ->
  exists m',
    handle_fill E fuel order_id replace m
      = (m', Raise (Exception "Order is not filled."))
    /\ _orders m' = dict_remove order_id (_orders m)
    /\ dict_get order_id (_orders m') = None
    /\ _fills m' = _fills m.
Proof.
  intros Hget Hnf. eexists. unfold handle_fill. run_m.
  rewrite Hget, Hnf. simpl. repeat split.
  apply dict_get_remove.
Qed.

Lemma position_size_at_buy_cap (E : Exchange) (m : MM) :
  List.length (buy_orders m) = max_open_buys m ->
  ~ lowest_ask E == 0 ->
  position_size E m = Ret 0.
Proof.
  intros Hcap Hask. unfold position_size.
  destruct (Qeq_bool (lowest_ask E) 0) eqn:Hb.
  - apply Qeq_bool_iff in Hb. contradiction.
  - rewrite Hcap, Nat.ltb_irrefl, andb_false_r. reflexivity.
Qed.

(** C9. A filled sell handled with [replace = true] while the open buys
    number exactly [max_open_buys]: the order moves to the fills table,
    which grows by that one entry, and no order is added to the
    registry; the call returns no order (given a non-zero lowest ask,
    which [position_size] divides by). And [position_size] is 0 with
    the buys at the cap, whatever the balance. *)
Theorem handle_fill_sell_at_buy_cap (E : Exchange) (fuel : nat) (m : MM)
    (order_id : string) (order : Order) :
  NoDup (keys (_orders m)) ->
  dict_get order_id (_orders m) = Some order ->
  is_filled E order = true ->
  side order = sell ->
  List.length (buy_orders m) = max_open_buys m ->
  let m' := fst (handle_fill E fuel order_id true m) in
  _orders m' = dict_remove order_id (_orders m)
  /\ _fills m' = dict_set order_id order (_fills m)
  /\ (dict_get order_id (_fills m) = None ->
      List.length (_fills m') = S (List.length (_fills m)))
  /\ (~ lowest_ask E == 0 ->
      snd (handle_fill E fuel order_id true m) = Ret None)
  /\ (forall E' m0, List.length (buy_orders m0) = max_open_buys m0 ->
        ~ lowest_ask E' == 0 -> position_size E' m0 = Ret 0).
Proof.
  intros Hnd Hget Hfilled Hside Hcap.
  assert (Hbuys : List.length
            (buy_orders (set_fills (set_orders m (dict_remove order_id (_orders m)))
                                   (dict_set order_id order (_fills m))))
          = max_open_buys m).
  { unfold buy_orders in *. simpl.
    now rewrite (buys_after_removing_sell _ _ _ Hnd Hget Hside). }
  assert (Hrun : exists r,
    handle_fill E fuel order_id true m
    = (set_fills (set_orders m (dict_remove order_id (_orders m)))
                 (dict_set order_id order (_fills m)), r)
    /\ (~ lowest_ask E == 0 -> r = Ret None)).
  { unfold handle_fill. run_m. rewrite Hget, Hfilled, Hside. simpl.
    rewrite Hbuys, Nat.ltb_irrefl. simpl.
    destruct (max_open_sells m <? _)%nat; simpl; [eauto|].
    unfold place_order, checked_size. run_m. simpl. unfold position_size.
    destruct (Qeq_bool (lowest_ask E) 0) eqn:Hask; simpl.
    - eexists. split; [reflexivity|]. intros Hne.
      apply Qeq_bool_iff in Hask. contradiction.
    - rewrite Hbuys, Nat.ltb_irrefl, andb_false_r. simpl. eauto. }
  destruct Hrun as (r & Hrun & Hret). rewrite Hrun. simpl.
  repeat split; auto using dict_set_absent_length, position_size_at_buy_cap.
Qed.

(** ** Cancelling an order the exchange no longer knows *)

(** C3 (as amended). A tracked order whose cancel the exchange answers
    with a "not found" error: the first [cancel_order] drops the id from
    the registry and returns the order without raising; a second
    [cancel_order] for the same id leaves the registry as it is and
    raises [AttributeError], the id being tracked no more. *)
Theorem cancel_order_not_found_twice (E : Exchange) (fuel : nat) (m : MM)
    (order_id msg : string) (o : Order) :
  dict_get order_id (_orders m) = Some o ->
  ex_cancel E o = inl (GdaxAPIError msg) ->
  str_in "done" msg = false ->
  str_in "not found" msg = true ->
  let m1 := set_orders m (dict_remove order_id (_orders m)) in
  cancel_order E fuel order_id m = (m1, Ret (Some o))
  /\ (exists m2, cancel_order E fuel order_id m1 = (m2, Raise AttributeError)
                 /\ _orders m2 = _orders m1 /\ _fills m2 = _fills m1).
Proof.
  intros Hget Hcancel Hdone Hnf. simpl. split.
  - unfold cancel_order. run_m.
    now rewrite Hget, Hcancel, Hdone, Hnf.
  - eexists. unfold cancel_order. run_m. simpl.
    rewrite dict_get_remove. repeat split. simpl.
    apply dict_remove_absent, dict_get_remove.
Qed.

(** ** The profit target *)

(** [pnl] never changes, so neither does the test of the loop. *)
Lemma profit_target_loop_diverges (fuel : nat) (pnl min_profit p : Q) :
  pnl < min_profit -> profit_target_loop fuel pnl min_profit p = Diverge.
Proof.
  intros H. apply Qlt_bool_iff in H. revert p.
  induction fuel as [|fuel IH]; intros p; simpl; rewrite H; [reflexivity|].
  apply IH.
Qed.

(** With a PnL under the target on entry the call never returns. *)
Lemma profit_target_diverges (fuel : nat) (o : Order) (min_profit pnl : Q) :
  get_pnl o (Some (price o)) = Some pnl -> pnl < min_profit ->
  get_price_adjusted_to_profit_target fuel o min_profit = Diverge.
Proof.
  intros Hpnl Hlt. unfold get_price_adjusted_to_profit_target.
  rewrite Hpnl. now apply profit_target_loop_diverges.
Qed.

(** Without an opposite there is no PnL and the price comes back as is. *)
Lemma profit_target_without_pnl (fuel : nat) (o : Order) (min_profit : Q) :
  op_order o = None ->
  get_price_adjusted_to_profit_target fuel o min_profit = Ret (price o).
Proof.
  intros H. unfold get_price_adjusted_to_profit_target, get_pnl. now rewrite H.
Qed.

(** ** Rounding to hundredths *)

Lemma round_half_even_comp (x y : Q) :
  x == y -> round_half_even x = round_half_even y.
Proof.
  intros H. unfold round_half_even.
  rewrite (Qfloor_comp _ _ H).
  assert (Hc : Qcompare (x - inject_Z (Qfloor y)) (1 # 2)
               = Qcompare (y - inject_Z (Qfloor y)) (1 # 2)).
  { apply Qcompare_comp; [|reflexivity]. now rewrite H. }
  now rewrite Hc.
Qed.

Lemma round_half_even_Z (n : Z) : round_half_even (inject_Z n) = n.
Proof.
  unfold round_half_even. rewrite Qfloor_Z.
  destruct (Qcompare_spec (inject_Z n - inject_Z n) (1 # 2)) as [H|H|H];
    [exfalso; lra | reflexivity | exfalso; lra].
Qed.

Lemma round_half_even_floor (q : Q) : (Qfloor q <= round_half_even q)%Z.
Proof.
  unfold round_half_even.
  destruct (Qcompare _ _); [destruct (Z.even _)| |]; lia.
Qed.

Lemma round2_comp (x y : Q) : x == y -> round2 x = round2 y.
Proof.
  intros H. unfold round2. f_equal. f_equal.
  apply round_half_even_comp. now rewrite H.
Qed.

Lemma round2_hundredth (n : Z) : round2 (inject_Z n / 100) = inject_Z n / 100.
Proof.
  unfold round2. f_equal. f_equal.
  rewrite <- (round_half_even_Z n) at 2.
  apply round_half_even_comp. field.
Qed.

Lemma round2_idem (x : Q) : round2 (round2 x) = round2 x.
Proof. unfold round2 at 2 3. apply round2_hundredth. Qed.

Lemma round2_nonneg (x : Q) : 0 <= x -> 0 <= round2 x.
Proof.
  intros H. unfold round2.
  assert (Hf : (0 <= round_half_even (x * 100))%Z).
  { etransitivity; [|apply round_half_even_floor].
    change 0%Z with (Qfloor 0). apply Qfloor_resp_le. lra. }
  rewrite Zle_Qle in Hf. change (inject_Z 0) with 0 in Hf.
  apply Qle_shift_div_l; lra.
Qed.

Lemma two_decimals_round2 (x : Q) : two_decimals (round2 x).
Proof. unfold two_decimals. now rewrite round2_idem. Qed.

(** ** Adjusting a buy against the ticker *)

Section TickerLoop.

Variable o_prices : list Q.
Variable spread_add : Q.

Lemma ticker_loop_buy_below (fuel : nat) (bound p0 p : Q) :
  0 <= spread_add -> p0 < bound ->
  ticker_loop fuel buy o_prices spread_add p0 = Ret p -> p < bound.
Proof.
  intros Hadd. revert p0.
  induction fuel as [|fuel IH]; intros p0 Hlt; simpl;
    destruct (Qmem p0 o_prices); try discriminate.
  - intros [= <-]. exact Hlt.
  - apply IH. lra.
  - intros [= <-]. exact Hlt.
Qed.

Lemma peers_below_step (p : Q) :
  0 < spread_add -> Qmem p o_prices = true ->
  (peers_at_or_below o_prices (p - spread_add)
   < peers_at_or_below o_prices p)%nat.
Proof.
  intros Hadd. unfold peers_at_or_below, Qmem.
  induction o_prices as [|x l IH]; simpl; [discriminate|].
  assert (Hmono : forall l',
    (List.length (filter (fun x => Qle_bool x (p - spread_add)) l')
     <= List.length (filter (fun x => Qle_bool x p) l'))%nat).
  { induction l' as [|y l' IHl]; simpl; [lia|].
    destruct (Qle_bool y (p - spread_add)) eqn:H1.
    - apply Qle_bool_iff in H1.
      assert (H2 : Qle_bool y p = true) by (apply Qle_bool_iff; lra).
      rewrite H2. simpl. lia.
    - destruct (Qle_bool y p); simpl; lia. }
  destruct (Qeq_bool p x) eqn:Hpx; simpl.
  - intros _. apply Qeq_bool_iff in Hpx.
    assert (H1 : Qle_bool x (p - spread_add) = false)
      by (apply Qle_bool_false_iff; lra).
    assert (H2 : Qle_bool x p = true) by (apply Qle_bool_iff; lra).
    rewrite H1, H2. simpl. specialize (Hmono l). lia.
  - intros Hmem. specialize (IH Hmem).
    destruct (Qle_bool x (p - spread_add)) eqn:H1.
    + apply Qle_bool_iff in H1.
      assert (H2 : Qle_bool x p = true) by (apply Qle_bool_iff; lra).
      rewrite H2. simpl. lia.
    + destruct (Qle_bool x p); simpl; lia.
Qed.

(** Fuel that covers the peers at or below the start is enough. *)
Lemma ticker_loop_buy_returns (fuel : nat) (p0 : Q) :
  0 < spread_add -> (peers_at_or_below o_prices p0 <= fuel)%nat ->
  exists p, ticker_loop fuel buy o_prices spread_add p0 = Ret p.
Proof.
  intros Hadd. revert p0.
  induction fuel as [|fuel IH]; intros p0 Hfuel; simpl;
    destruct (Qmem p0 o_prices) eqn:Hmem; eauto.
  - pose proof (peers_below_step p0 Hadd Hmem). lia.
  - apply IH. pose proof (peers_below_step p0 Hadd Hmem). lia.
Qed.

End TickerLoop.

(** C6. For a buy order, a ticker holding a price and a positive
    selected spread, every price [get_price_adjusted_to_ticker]
    returns is strictly below the ticker price; and it does return,
    with fuel for one step per tracked order, as soon as the half
    spread rounds to a positive step. *)
Theorem buy_price_below_ticker (E : Exchange) (m : MM) (o : Order)
    (price_arg ticker_arg : option Q) (aggressive adjust_vs_open : bool)
    (ticker_price : Q) :
  side o = buy ->
  match ticker_arg with Some t => Some t | None => ticker E end
    = Some ticker_price ->
  0 < (if aggressive then min_spread m else max_spread m) ->
  (forall fuel p,
     get_price_adjusted_to_ticker E m fuel o price_arg ticker_arg
                                  aggressive adjust_vs_open = Ret p ->
     p < ticker_price)
  /\ (0 < round2 ((if aggressive then min_spread m else max_spread m) / 2) ->
      exists p,
        get_price_adjusted_to_ticker E m (List.length (_orders m)) o price_arg
                                     ticker_arg aggressive adjust_vs_open
          = Ret p
        /\ p < ticker_price).
Proof.
  intros Hside Hticker Hspread.
  set (spread := if aggressive then min_spread m else max_spread m) in *.
  set (price0 := match price_arg with Some p => p | None => price o end).
  set (start := if Qle_bool (ticker_price - spread) price0
                then ticker_price - spread else price0).
  assert (Hstart : start < ticker_price).
  { unfold start. destruct (Qle_bool (ticker_price - spread) price0) eqn:Hb.
    - lra.
    - apply Qle_bool_false_iff in Hb. lra. }
  assert (Hadd : 0 <= round2 (spread / 2)).
  { apply round2_nonneg. apply Qle_shift_div_l; lra. }
  assert (Hrun : forall fuel,
    get_price_adjusted_to_ticker E m fuel o price_arg ticker_arg
                                 aggressive adjust_vs_open
    = ticker_loop fuel buy (get_other_order_prices m buy)
                  (round2 (spread / 2)) start).
  { intros fuel. unfold get_price_adjusted_to_ticker.
    rewrite Hticker, Hside. reflexivity. }
  split.
  - intros fuel p. rewrite Hrun.
    now apply ticker_loop_buy_below.
  - intros Hpos. rewrite Hrun.
    destruct (ticker_loop_buy_returns (get_other_order_prices m buy)
                (round2 (spread / 2)) (List.length (_orders m)) start Hpos)
      as [p Hp].
    + unfold peers_at_or_below, get_other_order_prices, values.
      etransitivity; [apply filter_length_le|].
      rewrite length_map.
      etransitivity; [apply filter_length_le|].
      now rewrite length_map.
    + exists p. split; [exact Hp|].
      now apply (ticker_loop_buy_below _ _ _ _ start p Hadd Hstart Hp).
Qed.

(** ** The prices out of the peer adjustment *)

Lemma filter_all_false {A} (f : A -> bool) (l : list A) :
  (forall x, In x l -> f x = false) -> filter f l = [].
Proof.
  induction l as [|a l IH]; simpl; intros H; [reflexivity|].
  rewrite (H a) by now left. apply IH. intros x Hx. apply H. now right.
Qed.

Section AdjPrice.

Variable other_prices : list Q.
Variable step : Q.
Variable increment : bool.



End AdjPrice.

(** ** What [place_order] posts *)


Lemma checked_size_state (E : Exchange) (cs : bool) (s : Side) (size0 : Q)
    (m : MM) :
  fst (checked_size E cs s size0 m) = m.
Proof.
  unfold checked_size. run_m.
  destruct (cs && Side_eqb s buy); [|reflexivity].
  destruct (position_size E m) as [ps| |]; try reflexivity.
  destruct (Qlt_bool ps (1 # 100)); [reflexivity|].
  now destruct (Qlt_bool ps size0).
Qed.

(** Every way [place_order] can end. Only a posted order changes the
    state: it is filed under the id the exchange gave it. *)
Lemma place_order_inv (E : Exchange) (fuel : nat) (price0 size0 : Q)
    (s : Side) (op : option Order) (avo avw cs ct ag : bool) (m m' : MM)
    (r : outcome (option Order)) :
  place_order E fuel price0 size0 s op avo avw cs ct ag m = (m', r) ->
  match r with
  | Ret (Some o) =>
      exists i sz p1 p,
        snd (checked_size E cs s size0 m) = Ret (Some sz)
        /\ (if avo then
              exists a,
                get_price_adjusted_to_other_prices E m fuel
                  (GdaxMMOrder None s price0 sz op) None ag
                  (round2 (max_spread m / 2)) (Some (min_spread m)) = Ret a
                /\ p1 = (if truthy a then a else price0)
            else p1 = price0)
        /\ (if ct then
              exists t,
                get_price_adjusted_to_ticker E m fuel
                  (GdaxMMOrder None s p1 sz op) None None ag true = Ret t
                /\ p = (if truthy t then t else p1)
            else p = p1)
        /\ ex_post E (GdaxMMOrder None s p sz op) = inr (Some i)
        /\ o = GdaxMMOrder (Some i) s p sz op
        /\ m' = set_orders m (dict_set i o (_orders m))
  | _ => m' = m
  end.
Proof.
  unfold place_order, bind.
  pose proof (checked_size_state E cs s size0 m) as Hst.
  destruct (checked_size E cs s size0 m) as [m0 [[sz|]| |]]; simpl in Hst;
    subst m0; try (now intros [= <- <-]).
  unfold lift, get_mm, ret.
  destruct avo.
  - destruct (get_price_adjusted_to_other_prices E m fuel _ None ag _ _)
      as [a| |] eqn:Ha; try (now intros [= <- <-]).
    set (p1 := if truthy a then a else price0).
    assert (Hp1 : (if truthy a
                   then set_price (GdaxMMOrder None s price0 sz op) a
                   else GdaxMMOrder None s price0 sz op)
                  = GdaxMMOrder None s p1 sz op)
      by (unfold p1; now destruct (truthy a)).
    rewrite Hp1. destruct ct.
    + destruct (get_price_adjusted_to_ticker E m fuel _ None None ag true)
        as [t| |] eqn:Ht; try (now intros [= <- <-]).
      set (p := if truthy t then t else p1).
      assert (Hp : (if truthy t
                    then set_price (GdaxMMOrder None s p1 sz op) t
                    else GdaxMMOrder None s p1 sz op)
                   = GdaxMMOrder None s p sz op)
        by (unfold p; now destruct (truthy t)).
      rewrite Hp.
      destruct (ex_post E _) as [e|[i|]] eqn:Hpost;
        try (now intros [= <- <-]).
      intros [= <- <-]. exists i, sz, p1, p. repeat split; eauto.
    + destruct (ex_post E _) as [e|[i|]] eqn:Hpost;
        try (now intros [= <- <-]).
      intros [= <- <-]. exists i, sz, p1, p1. repeat split; eauto.
  - destruct ct.
    + destruct (get_price_adjusted_to_ticker E m fuel _ None None ag true)
        as [t| |] eqn:Ht; try (now intros [= <- <-]).
      set (p := if truthy t then t else price0).
      assert (Hp : (if truthy t
                    then set_price (GdaxMMOrder None s price0 sz op) t
                    else GdaxMMOrder None s price0 sz op)
                   = GdaxMMOrder None s p sz op)
        by (unfold p; now destruct (truthy t)).
      rewrite Hp.
      destruct (ex_post E _) as [e|[i|]] eqn:Hpost;
        try (now intros [= <- <-]).
      intros [= <- <-]. exists i, sz, price0, p. repeat split; eauto.
    + destruct (ex_post E _) as [e|[i|]] eqn:Hpost;
        try (now intros [= <- <-]).
      intros [= <- <-]. exists i, sz, price0, price0. repeat split; eauto.
Qed.





(** ** The stop check of [shift_orders] *)

(** A sell at or under its stop is only noted in [cancels]: the pass
    over it changes neither the registry nor the new orders. *)
Lemma shift_one_stopped_sell (E : Exchange) (fuel : nat)
    (exclude : list string) (p spread stop : Q) (acc : ShiftAcc)
    (order_id : string) (order : Order) (m : MM) :
  str_mem order_id exclude = false ->
  side order = sell ->
  stop_amount m order = Some stop ->
  truthy stop = true ->
  p <= stop ->
  shift_one E fuel exclude p spread acc order_id order m
  = (m, Ret (mkShiftAcc (cancels acc ++ [(order_id, p + (1 # 100))])%list
                        (new_orders acc))).
Proof.
  intros Hex Hside Hstop Htruthy Hle. unfold shift_one. run_m.
  rewrite Hex, Hside, Hstop. simpl. rewrite Htruthy.
  apply Qle_bool_iff in Hle. now rewrite Hle.
Qed.

(** ** The opposite of a replacement *)

(** [register_op_order] keeps the pairing: a same-side order hands on
    its own opposite. *)
Lemma register_op_order_paired (o order o' : Order) :
  opposite_sides order ->
  register_op_order o order = inr o' ->
  opposite_sides o'.
Proof.
  unfold register_op_order, opposite_sides.
  destruct (side order) eqn:Hs, (side o) eqn:Ho, (op_order order) as [op|];
    simpl; intros Hp [= <-]; simpl; congruence.
Qed.

(** [place_order] stores the [op_order] it is given, whatever its side. *)
Lemma place_order_stores_op_order (E : Exchange) (fuel : nat) (m m' : MM)
    (price0 size0 : Q) (s : Side) (op : option Order)
    (adjust_vs_open adjust_vs_wall check_size check_ticker aggressive : bool)
    (o : Order) :
  place_order E fuel price0 size0 s op adjust_vs_open adjust_vs_wall
              check_size check_ticker aggressive m = (m', Ret (Some o)) ->
  op_order o = op /\ side o = s.
Proof.
  unfold place_order, checked_size. run_m.
  destruct (check_size && Side_eqb s buy); simpl.
  - destruct (position_size E m) as [ps| |]; try discriminate.
    destruct (Qlt_bool ps (1 # 100)); [discriminate|].
    destruct (Qlt_bool ps size0); simpl;
      destruct adjust_vs_open, check_ticker; simpl; adjust_cases;
      now intros [= _ <-].
  - destruct adjust_vs_open, check_ticker; simpl; adjust_cases;
      now intros [= _ <-].
Qed.

(** ** Runs of the scenarios *)

(** C1. On the stop-trigger scenario the stop amount of the sell is at
    or above the ticker, and [shift_orders] returns no new order and
    leaves the sell tracked: the stopped order is only noted in
    [cancels], and is neither cancelled nor replaced. *)
Theorem shift_orders_skips_stopped_sell :
  (exists stop, stop_amount stop_mm open_sell = Some stop
                /\ (569 # 2) <= stop)
  /\ forall fuel,
       shift_orders stop_exchange fuel None stop_mm
       = (set_last_ticker stop_mm (Some (569 # 2)), Ret (Some []))
       /\ _orders (fst (shift_orders stop_exchange fuel None stop_mm))
          = one_sell.
Proof.
  split.
  - eexists. split; [reflexivity|]. vm_compute. discriminate.
  - intros fuel. split; reflexivity.
Qed.

(** C2. The registry of the reprice scenario is paired before
    [shift_orders] and is not after it: the replacement sell is tracked
    with the cancelled sell as its opposite. *)
Theorem shift_orders_breaks_pairing :
  registry_paired reprice_mm
  /\ forall fuel,
       (exists o, dict_get "n-1"
                    (_orders (fst (shift_orders reprice_exchange fuel None
                                                reprice_mm))) = Some o
                  /\ side o = sell /\ op_order o = Some open_sell)
       /\ ~ registry_paired
             (fst (shift_orders reprice_exchange fuel None reprice_mm)).
Proof.
  split.
  - intros k o. simpl. destruct (String.eqb k "s-1"); [|discriminate].
    intros [= <-]. simpl. discriminate.
  - intros fuel.
    assert (Hget : dict_get "n-1"
              (_orders (fst (shift_orders reprice_exchange fuel None
                                          reprice_mm)))
            = Some (GdaxMMOrder (Some "n-1") sell (round2 (3018 # 10)) 1
                                (Some open_sell)))
      by (destruct fuel; reflexivity).
    split.
    + eexists. split; [exact Hget|]. split; reflexivity.
    + intros Hpaired. specialize (Hpaired _ _ Hget). now apply Hpaired.
Qed.

(** C4. For the break-even sell and [min_profit = 0.01] the PnL is
    defined and below the target, and the call never returns, whatever
    the fuel. *)
Theorem profit_target_never_returns :
  (exists pnl, get_pnl breakeven_sell None = Some pnl /\ pnl < 1 # 100)
  /\ forall fuel,
       get_price_adjusted_to_profit_target fuel breakeven_sell (1 # 100)
       = Diverge.
Proof.
  split.
  - eexists. split; reflexivity.
  - intros fuel.
    apply (profit_target_diverges fuel breakeven_sell (1 # 100)
             (round2 (1 * 300 - 1 * 300))); reflexivity.
Qed.

(** C3, counterexample. Two calls of [cancel_order] for the tracked
    sell on an exchange that reports it "not found": the first returns
    the order, the second raises [AttributeError]. *)
Lemma cancel_order_second_call_raises :
  exists m1,
    cancel_order gone_exchange 0 "s-1" reprice_mm = (m1, Ret (Some open_sell))
    /\ cancel_order gone_exchange 0 "s-1" m1 = (m1, Raise AttributeError).
Proof. exists (set_orders reprice_mm []). split; reflexivity. Qed.

(** C5. Three runs in which [get_price_adjusted_to_other_prices]
    returns a price that is not more than [2 * step] from a tracked
    order of the order's own side, with [step = 0.25]. A buy at 300.00
    next to a tracked buy at 300.50 comes back at 300.00, exactly
    [2 * step] away: the first test of the window is strict. The test
    inside the loop is inclusive: with a second buy tracked at 299.75
    the candidate passes 301.00, which is [2 * step] or more from both
    buys, and comes back at 301.25. And a sell at 300.00 next to a
    tracked sell at 300.25 comes back at 300.00: a sell is compared
    with the tracked buys, and there are none. *)
Theorem other_prices_too_close :
  (forall fuel, exists r,
     get_price_adjusted_to_other_prices quiet_exchange peer_buy_mm fuel
       new_buy None true (1 # 4) (Some (1 # 100)) = Ret r
     /\ r == 300
     /\ peer_prices peer_buy_mm new_buy None = [601 # 2]
     /\ Qabs ((601 # 2) - r) == 2 * (1 # 4))
  /\ (exists r,
        get_price_adjusted_to_other_prices quiet_exchange two_peers_mm 5
          new_buy None true (1 # 4) (Some (1 # 100)) = Ret r
        /\ r == 1205 # 4
        /\ forall x, In x (peer_prices two_peers_mm new_buy None) ->
                     2 * (1 # 4) <= Qabs (x - 301))
  /\ (forall fuel, exists r,
        get_price_adjusted_to_other_prices quiet_exchange peer_sell_mm fuel
          new_sell None true (1 # 4) (Some (1 # 100)) = Ret r
        /\ r == 300
        /\ sell_orders peer_sell_mm = [("s-4", peer_sell)]
        /\ Qabs (price peer_sell - r) < 2 * (1 # 4)).
Proof.
  split; [|split].
  - intros fuel. exists (round2 300).
    split; [destruct fuel; reflexivity|]. repeat split.
  - exists (round2 (round2 (round2 (round2 (round2 (round2 300 + (1 # 4))
                                             + (1 # 4)) + (1 # 4))
                              + (1 # 4)) + (1 # 4))).
    split; [reflexivity|]. split; [reflexivity|].
    intros x [<-|[<-|[]]]; vm_compute; discriminate.
  - intros fuel. exists (round2 300).
    split; [reflexivity|]. repeat split.
Qed.

(** C8, counterexample. Under [stop_pct = 0.1] the sell that follows a
    buy at 300.40 has the stop amount 270.35999999999996, which is not
    [300.4 * (1 - 0.1)], 270.36. *)
Lemma stop_amount_not_product :
  exists stop,
    Float64.stop_amount Float64.ten_percent sell (Some Float64.price_300_40)
    = Some stop
    /\ PrimFloat.eqb stop
         (Float64.price_300_40 * (1 - Float64.ten_percent))%float = false
    /\ stop <> (Float64.price_300_40 * (1 - Float64.ten_percent))%float.
Proof.
  eexists. split; [reflexivity|]. split; [reflexivity|].
  intros H.
  apply (f_equal (fun x => PrimFloat.eqb x
           (Float64.price_300_40 * (1 - Float64.ten_percent))%float)) in H.
  vm_compute in H. discriminate.
Qed.


(** ** The theorems at work on the scenarios *)

(** The stop of the sell that follows the buy at 300.00 is 285.00
    under [stop_pct = 0.05]; a buy, a sell without opposite and a maker
    without stop have none. *)
Lemma stop_amount_spec_witness :
  Float64.stop_amount Float64.five_percent sell (Some 300%float)
  = Some 285%float
  /\ Float64.stop_amount Float64.five_percent buy (Some 300%float) = None
  /\ Float64.stop_amount Float64.five_percent sell None = None
  /\ Float64.stop_amount 0%float sell (Some 300%float) = None.
Proof.
  split; [|split; [|split]].
  - exact (proj1 (stop_amount_spec Float64.five_percent sell
                    (Some 300%float))
                 300%float eq_refl eq_refl eq_refl).
  - apply (stop_amount_spec Float64.five_percent buy (Some 300%float)).
    right. now left.
  - apply (stop_amount_spec Float64.five_percent sell None).
    right. now right.
  - apply (stop_amount_spec 0%float sell (Some 300%float)). now left.
Defined.

(** The open sell handled as a fill while the exchange still has it. *)
Lemma handle_fill_not_filled_raises_witness :
  exists m',
    handle_fill reprice_exchange 0 "s-1" true reprice_mm
      = (m', Raise (Exception "Order is not filled."))
    /\ _orders m' = dict_remove "s-1" (_orders reprice_mm)
    /\ dict_get "s-1" (_orders m') = None
    /\ _fills m' = _fills reprice_mm.
Proof.
  exact (handle_fill_not_filled_raises reprice_exchange 0 reprice_mm "s-1"
           open_sell true eq_refl eq_refl).
Defined.

(** The ids of the capped registry are distinct. *)
Lemma capped_keys_nodup : NoDup (keys (_orders capped_mm)).
Proof.
  repeat constructor; simpl; intuition discriminate.
Defined.

(** The sell fills with three of three buys open: nothing is placed. *)
Lemma handle_fill_sell_at_buy_cap_witness :
  snd (handle_fill capped_exchange 0 "s-1" true capped_mm) = Ret None
  /\ _orders (fst (handle_fill capped_exchange 0 "s-1" true capped_mm))
     = dict_remove "s-1" capped_orders
  /\ List.length (_fills (fst (handle_fill capped_exchange 0 "s-1" true
                                           capped_mm))) = 1%nat
  /\ position_size capped_exchange capped_mm = Ret 0.
Proof.
  destruct (handle_fill_sell_at_buy_cap capped_exchange 0 capped_mm "s-1"
              open_sell capped_keys_nodup eq_refl eq_refl eq_refl eq_refl)
    as (Horders & _ & Hfills & Hret & Hsize).
  split; [|split; [|split]].
  - apply Hret. vm_compute. discriminate.
  - exact Horders.
  - exact (Hfills eq_refl).
  - apply Hsize; [reflexivity|]. vm_compute. discriminate.
Defined.

(** The lost sell cancelled twice. *)
Lemma cancel_order_not_found_twice_witness :
  let m1 := set_orders reprice_mm (dict_remove "s-1" (_orders reprice_mm)) in
  cancel_order gone_exchange 0 "s-1" reprice_mm = (m1, Ret (Some open_sell))
  /\ (exists m2,
        cancel_order gone_exchange 0 "s-1" m1 = (m2, Raise AttributeError)
        /\ _orders m2 = _orders m1 /\ _fills m2 = _fills m1).
Proof.
  exact (cancel_order_not_found_twice gone_exchange 0 reprice_mm "s-1"
           "order not found" open_sell eq_refl eq_refl eq_refl eq_refl).
Defined.

(** A buy at 300.00 under a ticker at 300.00 steps over the tracked buy
    at 299.50 and comes back at 299.25. *)
Lemma buy_price_below_ticker_witness :
  (forall fuel p,
     get_price_adjusted_to_ticker buy_exchange buy_mm fuel new_buy None None
                                  true true = Ret p -> p < 300)
  /\ exists p,
       get_price_adjusted_to_ticker buy_exchange buy_mm 1 new_buy None None
                                    true true = Ret p
       /\ p < 300.
Proof.
  destruct (buy_price_below_ticker buy_exchange buy_mm new_buy None None
              true true 300 eq_refl eq_refl eq_refl) as [Hsafe Hret].
  split; [exact Hsafe|]. exact (Hret eq_refl).
Defined.


(** * Further properties of the engine *)

(** ** Lookups after an update *)

Lemma dict_get_set_same (k : string) (v : Order) (d : dict) :
  dict_get k (dict_set k v d) = Some v.
Proof.
  induction d as [|[k' v'] d IH]; simpl.
  - now rewrite String.eqb_refl.
  - destruct (String.eqb k k') eqn:Hk; simpl.
    + now rewrite String.eqb_refl.
    + now rewrite Hk.
Qed.

Lemma dict_get_set_other (k i : string) (v : Order) (d : dict) :
  k <> i -> dict_get k (dict_set i v d) = dict_get k d.
Proof.
  intros Hne. apply String.eqb_neq in Hne.
  induction d as [|[k' v'] d IH]; simpl.
  - now rewrite Hne.
  - destruct (String.eqb_spec i k') as [->|Hik]; simpl.
    + now rewrite Hne.
    + destruct (String.eqb k k'); [reflexivity|exact IH].
Qed.

Lemma dict_get_remove_other (k i : string) (d : dict) :
  k <> i -> dict_get k (dict_remove i d) = dict_get k d.
Proof.
  intros Hne. induction d as [|[k' v'] d IH]; simpl; [reflexivity|].
  destruct (String.eqb_spec i k') as [->|Hik]; simpl.
  - apply String.eqb_neq in Hne. now rewrite Hne.
  - destruct (String.eqb k k'); [reflexivity|exact IH].
Qed.

(** What is found after a removal was there before. *)
Lemma dict_get_remove_some (k i : string) (d : dict) (o : Order) :
  dict_get k (dict_remove i d) = Some o -> dict_get k d = Some o /\ k <> i.
Proof.
  intros H. destruct (String.eqb_spec k i) as [->|Hne].
  - now rewrite dict_get_remove in H.
  - now rewrite dict_get_remove_other in H.
Qed.

(** ** Rounding is monotone *)

Lemma round_half_even_ceil (q : Q) : (round_half_even q <= Qfloor q + 1)%Z.
Proof.
  unfold round_half_even.
  destruct (Qcompare _ _); [destruct (Z.even _)| |]; lia.
Qed.

Lemma round_half_even_mono (x y : Q) :
  x <= y -> (round_half_even x <= round_half_even y)%Z.
Proof.
  intros Hxy.
  pose proof (Qfloor_resp_le _ _ Hxy) as Hfl.
  destruct (Z.eq_dec (Qfloor x) (Qfloor y)) as [Heq|Hne].
  - unfold round_half_even. rewrite Heq.
    destruct (Qcompare_spec (x - inject_Z (Qfloor y)) (1 # 2)) as [Hx|Hx|Hx];
      destruct (Qcompare_spec (y - inject_Z (Qfloor y)) (1 # 2)) as [Hy|Hy|Hy];
      try destruct (Z.even (Qfloor y)); try lia; exfalso; lra.
  - etransitivity; [apply round_half_even_ceil|].
    etransitivity; [|apply round_half_even_floor]. lia.
Qed.

Lemma round2_mono (x y : Q) : x <= y -> round2 x <= round2 y.
Proof.
  intros Hxy. unfold round2.
  assert (H : (round_half_even (x * 100) <= round_half_even (y * 100))%Z)
    by (apply round_half_even_mono; lra).
  rewrite Zle_Qle in H.
  apply Qmult_le_compat_r; [exact H|]. discriminate.
Qed.

(** Rounding stays above a 2-decimal price it starts above. *)
Lemma round2_above (c x : Q) : two_decimals c -> c <= x -> c <= round2 x.
Proof.
  intros Hc Hx. unfold two_decimals in Hc. rewrite <- Hc.
  now apply round2_mono.
Qed.

Lemma round2_below (c x : Q) : two_decimals c -> x <= c -> round2 x <= c.
Proof.
  intros Hc Hx. unfold two_decimals in Hc. rewrite <- Hc.
  now apply round2_mono.
Qed.

(** ** How a call of [place_order] ends *)

(** X1. Whatever [place_order] does, the fills table is untouched. An
    order it returns has an id, is tracked under that id with the side
    and opposite passed in, and no other entry of the registry has
    changed. When it returns [None], raises or hangs, the state is the
    one it started from. *)
Theorem place_order_registers (E : Exchange) (fuel : nat) (price0 size0 : Q)
    (s : Side) (op : option Order) (avo avw cs ct ag : bool) (m m' : MM)
    (r : outcome (option Order)) :
  place_order E fuel price0 size0 s op avo avw cs ct ag m = (m', r) ->
  _fills m' = _fills m
  /\ match r with
     | Ret (Some o) =>
         exists i,
           o_id o = Some i
           /\ dict_get i (_orders m') = Some o
           /\ (forall k, k <> i ->
                 dict_get k (_orders m') = dict_get k (_orders m))
           /\ side o = s /\ op_order o = op
     | _ => m' = m
     end.
Proof.
  intros Hrun. apply place_order_inv in Hrun.
  destruct r as [[o|]| |]; try (subst m'; auto).
  destruct Hrun as (i & sz & p1 & p & _ & _ & _ & _ & -> & ->).
  split; [reflexivity|]. exists i. simpl. repeat split.
  - apply dict_get_set_same.
  - intros k Hk. now apply dict_get_set_other.
Qed.

(** X2. The size of a buy placed with [check_size] is the smaller of
    the size asked for and [position_size], which is then at least
    0.01; any other order keeps the size asked for. And [place_order]
    returns [None] exactly for a buy under [check_size] whose
    [position_size] is below 0.01. *)
Theorem place_order_size (E : Exchange) (fuel : nat) (price0 size0 : Q)
    (s : Side) (op : option Order) (avo avw cs ct ag : bool) (m : MM) :
  (forall m' o,
     place_order E fuel price0 size0 s op avo avw cs ct ag m
       = (m', Ret (Some o)) ->
     if cs && Side_eqb s buy then
       exists ps,
         position_size E m = Ret ps /\ 1 # 100 <= ps
         /\ size o <= ps /\ size o <= size0
         /\ (size o = ps \/ size o = size0)
     else size o = size0)
  /\ ((exists m', place_order E fuel price0 size0 s op avo avw cs ct ag m
                  = (m', Ret None))
      <-> cs && Side_eqb s buy = true
          /\ exists ps, position_size E m = Ret ps /\ ps < 1 # 100).
Proof.
  split.
  - intros m' o Hrun. apply place_order_inv in Hrun.
    destruct Hrun as (i & sz & p1 & p & Hsz & _ & _ & _ & -> & _). simpl.
    revert Hsz. unfold checked_size. run_m.
    destruct (cs && Side_eqb s buy); [|now intros [= ->]].
    destruct (position_size E m) as [ps| |]; try discriminate.
    destruct (Qlt_bool ps (1 # 100)) eqn:Hsmall; [discriminate|].
    apply Qlt_bool_false_iff in Hsmall.
    destruct (Qlt_bool ps size0) eqn:Hcap; intros [= <-]; exists ps.
    + apply Qlt_bool_iff in Hcap. repeat split; auto; lra.
    + apply Qlt_bool_false_iff in Hcap. repeat split; auto; lra.
  - unfold place_order, checked_size. run_m. split.
    + intros [m' Hrun]. revert Hrun.
      destruct (cs && Side_eqb s buy).
      * destruct (position_size E m) as [ps| |]; try discriminate.
        destruct (Qlt_bool ps (1 # 100)) eqn:Hsmall.
        -- intros _. apply Qlt_bool_iff in Hsmall. eauto.
        -- destruct (Qlt_bool ps size0); simpl;
             destruct avo, ct; simpl; adjust_cases; discriminate.
      * simpl. destruct avo, ct; simpl; adjust_cases; discriminate.
    + intros [Hcs (ps & Hps & Hsmall)]. rewrite Hcs, Hps.
      apply Qlt_bool_iff in Hsmall. rewrite Hsmall. eauto.
Qed.

(** ** Lower bounds through the price adjustments *)


Section AdjPriceFloor.

Variable other_prices : list Q.
Variable step : Q.
Variable increment : bool.
Hypothesis step_nonneg : 0 <= step.

Lemma adj_price_loop_above (c : Q) (fuel : nat) (p r : Q) (check_p : list Q) :
  two_decimals c -> c <= p ->
  adj_price_loop fuel other_prices step increment p check_p = Ret r ->
  c <= r.
Proof.
  intros Hc. revert p check_p.
  induction fuel as [|fuel IH]; intros p check_p Hp; simpl;
    destruct check_p; try discriminate.
  - now intros [= <-].
  - now intros [= <-].
  - apply IH. destruct increment; apply round2_above; auto; lra.
Qed.


(** Both arms of the loop add [step]: the candidate only moves up. *)
Lemma adj_price_never_lowers (fuel : nat) (p r : Q) :
  adj_price fuel other_prices step p increment = Ret r -> round2 p <= r.
Proof.
  unfold adj_price. apply adj_price_loop_above.
  - apply two_decimals_round2.
  - lra.
Qed.

End AdjPriceFloor.

(** X3. The peer adjustment never lowers a price: for a step that is
    not negative, every price it returns is the spread-adjusted
    candidate itself (no peers to compare with) or at least that
    candidate rounded to two decimals. This holds on the branches
    written as decrementing too: both arms of [adj_price] add [step]. *)
Theorem other_prices_never_lower (E : Exchange) (m : MM) (fuel : nat)
    (o : Order) (other_prices : option (list Q)) (ag : bool) (step : Q)
    (min_profit : option Q) (r : Q) :
  0 <= step ->
  get_price_adjusted_to_other_prices E m fuel o other_prices ag step
                                     min_profit = Ret r ->
  let my_min :=
    get_price_adjusted_to_spread E m o None ag None (8 # 10) min_profit in
  (peer_prices m o other_prices = [] /\ r = my_min)
  \/ (peer_prices m o other_prices <> [] /\ round2 my_min <= r).
Proof.
  intros Hstep. unfold get_price_adjusted_to_other_prices.
  destruct (peer_prices m o other_prices) as [|x0 rest].
  - intros [= <-]. now left.
  - intros Hr. right. split; [discriminate|].
    destruct (side o), ag; try destruct (Qle_bool _ _);
      exact (adj_price_never_lowers _ _ _ Hstep fuel _ r Hr).
Qed.


(** ** The ticker adjustment on both sides *)

Section TickerLoopBounds.

Variable o_prices : list Q.
Variable spread_add : Q.

Lemma ticker_loop_buy_at_most (fuel : nat) (bound p0 p : Q) :
  0 <= spread_add -> p0 <= bound ->
  ticker_loop fuel buy o_prices spread_add p0 = Ret p -> p <= bound.
Proof.
  intros Hadd. revert p0.
  induction fuel as [|fuel IH]; intros p0 Hle; simpl;
    destruct (Qmem p0 o_prices); try discriminate.
  - now intros [= <-].
  - apply IH. lra.
  - now intros [= <-].
Qed.

Lemma ticker_loop_sell_at_least (fuel : nat) (bound p0 p : Q) :
  0 <= spread_add -> bound <= p0 ->
  ticker_loop fuel sell o_prices spread_add p0 = Ret p -> bound <= p.
Proof.
  intros Hadd. revert p0.
  induction fuel as [|fuel IH]; intros p0 Hle; simpl;
    destruct (Qmem p0 o_prices); try discriminate.
  - now intros [= <-].
  - apply IH. lra.
  - now intros [= <-].
Qed.

(** The loop only hands back a price that no peer has. *)
Lemma ticker_loop_free (fuel : nat) (s : Side) (p0 p : Q) :
  ticker_loop fuel s o_prices spread_add p0 = Ret p ->
  Qmem p o_prices = false.
Proof.
  revert p0. induction fuel as [|fuel IH]; intros p0; simpl;
    destruct (Qmem p0 o_prices) eqn:Hmem; try discriminate.
  - now intros [= <-].
  - apply IH.
  - now intros [= <-].
Qed.

Lemma Qmem_comp (x y : Q) (l : list Q) : x == y -> Qmem x l = Qmem y l.
Proof.
  intros Hxy. unfold Qmem. induction l as [|a l IH]; simpl; [reflexivity|].
  rewrite IH. f_equal.
  destruct (Qeq_bool x a) eqn:Hx, (Qeq_bool y a) eqn:Hy; auto.
  - apply Qeq_bool_iff in Hx. apply Qeq_bool_neq in Hy.
    exfalso. apply Hy. now rewrite <- Hxy.
  - apply Qeq_bool_iff in Hy. apply Qeq_bool_neq in Hx.
    exfalso. apply Hx. now rewrite Hxy.
Qed.

(** With a step of 0 the loop cannot leave a price that is taken. *)
Lemma ticker_loop_stuck (fuel : nat) (s : Side) (p0 : Q) :
  spread_add == 0 ->
  ticker_loop fuel s o_prices spread_add p0
  = if Qmem p0 o_prices then Diverge else Ret p0.
Proof.
  intros Hadd. revert p0.
  induction fuel as [|fuel IH]; intros p0; simpl;
    destruct (Qmem p0 o_prices) eqn:Hmem; try reflexivity.
  rewrite IH.
  assert (Hnext : Qmem (match s with
                        | buy => p0 - spread_add
                        | sell => p0 + spread_add
                        end) o_prices = true).
  { rewrite <- Hmem. apply Qmem_comp. destruct s; rewrite Hadd; ring. }
  now rewrite Hnext.
Qed.

(** Peers at or above a price: what the sell loop has to step over. *)
Lemma peers_above_step (p : Q) :
  0 < spread_add -> Qmem p o_prices = true ->
  (List.length (filter (fun x => Qle_bool (p + spread_add) x) o_prices)
   < List.length (filter (fun x => Qle_bool p x) o_prices))%nat.
Proof.
  intros Hadd. unfold Qmem.
  assert (Hmono : forall l',
    (List.length (filter (fun x => Qle_bool (p + spread_add) x) l')
     <= List.length (filter (fun x => Qle_bool p x) l'))%nat).
  { induction l' as [|y l' IHl]; simpl; [lia|].
    destruct (Qle_bool (p + spread_add) y) eqn:H1.
    - apply Qle_bool_iff in H1.
      assert (H2 : Qle_bool p y = true) by (apply Qle_bool_iff; lra).
      rewrite H2. simpl. lia.
    - destruct (Qle_bool p y); simpl; lia. }
  induction o_prices as [|x l IH]; simpl; [discriminate|].
  destruct (Qeq_bool p x) eqn:Hpx; simpl.
  - intros _. apply Qeq_bool_iff in Hpx.
    assert (H1 : Qle_bool (p + spread_add) x = false)
      by (apply Qle_bool_false_iff; lra).
    assert (H2 : Qle_bool p x = true) by (apply Qle_bool_iff; lra).
    rewrite H1, H2. simpl. specialize (Hmono l). lia.
  - intros Hmem. specialize (IH Hmem).
    destruct (Qle_bool (p + spread_add) x) eqn:H1.
    + apply Qle_bool_iff in H1.
      assert (H2 : Qle_bool p x = true) by (apply Qle_bool_iff; lra).
      rewrite H2. simpl. lia.
    + destruct (Qle_bool p x); simpl; lia.
Qed.

Lemma ticker_loop_sell_returns (fuel : nat) (p0 : Q) :
  0 < spread_add ->
  (List.length (filter (fun x => Qle_bool p0 x) o_prices) <= fuel)%nat ->
  exists p, ticker_loop fuel sell o_prices spread_add p0 = Ret p.
Proof.
  intros Hadd. revert p0.
  induction fuel as [|fuel IH]; intros p0 Hfuel; simpl;
    destruct (Qmem p0 o_prices) eqn:Hmem; eauto.
  - pose proof (peers_above_step p0 Hadd Hmem). lia.
  - apply IH. pose proof (peers_above_step p0 Hadd Hmem). lia.
Qed.

End TickerLoopBounds.

(** The ticker adjustment is the loop run from the price clamped to the
    ticker. *)
Lemma ticker_adjustment_unfold (E : Exchange) (m : MM) (fuel : nat)
    (o : Order) (price_arg ticker_arg : option Q) (ag avo : bool) :
  let spread := if ag then min_spread m else max_spread m in
  let price0 := match price_arg with Some p => p | None => price o end in
  let start :=
    match (match ticker_arg with Some t => Some t | None => ticker E end) with
    | Some tp =>
        match side o with
        | buy => if Qle_bool (tp - spread) price0 then tp - spread else price0
        | sell => if Qle_bool price0 (tp + spread) then tp + spread else price0
        end
    | None => price0
    end in
  get_price_adjusted_to_ticker E m fuel o price_arg ticker_arg ag avo
  = ticker_loop fuel (side o) (get_other_order_prices m (side o))
                (round2 (spread / 2)) start.
Proof. reflexivity. Qed.

(** X4. The ticker adjustment only moves a buy down and a sell up, and
    with a ticker it keeps the whole spread between the price and the
    ticker: for a spread that is not negative, a returned buy price is
    at most the price it started from and at most [ticker - spread]; a
    returned sell price is at least the price it started from and at
    least [ticker + spread]. On either side the call returns, with fuel
    for one step per tracked order, when the half spread rounds to a
    positive step. *)
Theorem ticker_keeps_spread (E : Exchange) (m : MM) (o : Order)
    (price_arg ticker_arg : option Q) (ag avo : bool) :
  let spread := if ag then min_spread m else max_spread m in
  let price0 := match price_arg with Some p => p | None => price o end in
  let tick := match ticker_arg with Some t => Some t | None => ticker E end in
  0 <= spread ->
  (forall fuel p,
     get_price_adjusted_to_ticker E m fuel o price_arg ticker_arg ag avo
       = Ret p ->
     match side o with
     | buy => p <= price0 /\ forall tp, tick = Some tp -> p <= tp - spread
     | sell => price0 <= p /\ forall tp, tick = Some tp -> tp + spread <= p
     end)
  /\ (0 < round2 (spread / 2) ->
      exists p,
        get_price_adjusted_to_ticker E m (List.length (_orders m)) o
                                     price_arg ticker_arg ag avo = Ret p).
Proof.
  intros spread price0 tick Hspread.
  assert (Hadd : 0 <= round2 (spread / 2)).
  { apply round2_nonneg. apply Qle_shift_div_l; lra. }
  assert (Hlen : forall f : Q -> bool,
    (List.length (filter f (get_other_order_prices m (side o)))
     <= List.length (_orders m))%nat).
  { intros f. unfold get_other_order_prices, values.
    etransitivity; [apply filter_length_le|]. rewrite length_map.
    etransitivity; [apply filter_length_le|]. now rewrite length_map. }
  split.
  - intros fuel p. rewrite ticker_adjustment_unfold.
    fold spread price0 tick. destruct (side o); intros Hrun; split.
    + eapply ticker_loop_buy_at_most; [exact Hadd| |exact Hrun].
      destruct tick as [tp|]; [|lra].
      destruct (Qle_bool (tp - spread) price0) eqn:Hb; [|lra].
      now apply Qle_bool_iff in Hb.
    + intros tp ->.
      eapply ticker_loop_buy_at_most; [exact Hadd| |exact Hrun].
      destruct (Qle_bool (tp - spread) price0) eqn:Hb; [lra|].
      apply Qle_bool_false_iff in Hb. lra.
    + eapply ticker_loop_sell_at_least; [exact Hadd| |exact Hrun].
      destruct tick as [tp|]; [|lra].
      destruct (Qle_bool price0 (tp + spread)) eqn:Hb; [|lra].
      now apply Qle_bool_iff in Hb.
    + intros tp ->.
      eapply ticker_loop_sell_at_least; [exact Hadd| |exact Hrun].
      destruct (Qle_bool price0 (tp + spread)) eqn:Hb; [lra|].
      apply Qle_bool_false_iff in Hb. lra.
  - intros Hpos. rewrite ticker_adjustment_unfold.
    fold spread price0 tick. destruct (side o).
    + apply ticker_loop_buy_returns; [exact Hpos|].
      unfold peers_at_or_below. apply Hlen.
    + apply ticker_loop_sell_returns; [exact Hpos|]. apply Hlen.
Qed.

Lemma Qmem_false_not_in (x : Q) (l : list Q) :
  Qmem x l = false -> forall y, In y l -> ~ x == y.
Proof.
  unfold Qmem. intros Hmem y Hy Hxy.
  assert (Hex : existsb (Qeq_bool x) l = true).
  { apply existsb_exists. exists y. split; [exact Hy|].
    now apply Qeq_bool_iff. }
  congruence.
Qed.

(** X5. A price the ticker adjustment returns is taken by no tracked
    order of the same side: it differs from the 2-decimal rounding of
    the price of each of them. *)
Theorem ticker_price_is_free (E : Exchange) (m : MM) (fuel : nat) (o : Order)
    (price_arg ticker_arg : option Q) (ag avo : bool) (p : Q) :
  get_price_adjusted_to_ticker E m fuel o price_arg ticker_arg ag avo
    = Ret p ->
  forall k o', dict_get k (_orders m) = Some o' -> side o' = side o ->
               ~ p == round2 (price o').
Proof.
  rewrite ticker_adjustment_unfold. intros Hrun k o' Hget Hside.
  apply ticker_loop_free in Hrun.
  apply (Qmem_false_not_in _ _ Hrun).
  unfold get_other_order_prices. apply in_map_iff. exists o'.
  split; [reflexivity|]. apply filter_In. split.
  - unfold values. apply in_map_iff. exists (k, o'). split; [reflexivity|].
    clear - Hget. induction (_orders m) as [|[k' v] d IH]; simpl in *;
      [discriminate|].
    destruct (String.eqb_spec k k') as [->|Hne].
    + injection Hget as ->. now left.
    + right. now apply IH.
  - rewrite Hside. now destruct (side o).
Qed.

(** X6. When the half spread rounds to 0 the ticker adjustment cannot
    step off a price that is taken: its outcome is the same for every
    fuel, so it either returns before the first step or never returns. *)
Theorem ticker_adjustment_stuck (E : Exchange) (m : MM) (o : Order)
    (price_arg ticker_arg : option Q) (ag avo : bool) :
  round2 ((if ag then min_spread m else max_spread m) / 2) == 0 ->
  forall fuel,
    get_price_adjusted_to_ticker E m fuel o price_arg ticker_arg ag avo
    = get_price_adjusted_to_ticker E m 0 o price_arg ticker_arg ag avo.
Proof.
  intros Hadd fuel. rewrite !ticker_adjustment_unfold.
  now rewrite !(ticker_loop_stuck _ _ _ _ _ Hadd).
Qed.

(** ** What a fill leaves behind *)

(** [handle_fill] on a tracked, filled order: the state after the move
    to the fills table, and the placement that follows. *)
Lemma handle_fill_inv (E : Exchange) (fuel : nat) (m m' : MM)
    (order_id : string) (order : Order) (replace : bool)
    (r : outcome (option Order)) :
  dict_get order_id (_orders m) = Some order ->
  is_filled E order = true ->
  handle_fill E fuel order_id replace m = (m', r) ->
  let m1 := set_fills (set_orders m (dict_remove order_id (_orders m)))
                      (dict_set order_id order (_fills m)) in
  let spread := if aggressive m then min_spread m else max_spread m in
  if replace then
    match side order with
    | buy =>
        place_order E fuel (price order + spread) (size order) sell
                    (Some order) true true true true (aggressive m) m1
        = (m', r)
    | sell =>
        if (max_open_buys m <? List.length (buy_orders m1))%nat
           || (max_open_sells m <? List.length (sell_orders m1))%nat
        then m' = m1 /\ r = Ret None
        else place_order E fuel (price order - spread) (size order) buy
                         (Some order) true true true true (aggressive m) m1
             = (m', r)
    end
  else m' = m1 /\ r = Ret None.
Proof.
  intros Hget Hfilled. unfold handle_fill. run_m.
  rewrite Hget, Hfilled. simpl.
  destruct replace; [|now intros [= <- <-]].
  destruct (side order); simpl; [auto|].
  destruct (_ || _); simpl; [now intros [= <- <-]|auto].
Qed.



(** The state and the answer after [handle_fill] on a filled order. *)
Lemma handle_fill_outcome (E : Exchange) (fuel : nat) (m m' : MM)
    (order_id : string) (order : Order) (replace : bool)
    (r : outcome (option Order)) :
  dict_get order_id (_orders m) = Some order ->
  is_filled E order = true ->
  handle_fill E fuel order_id replace m = (m', r) ->
  _fills m' = dict_set order_id order (_fills m)
  /\ (replace = false -> r = Ret None)
  /\ match r with
     | Ret (Some o) =>
         exists i,
           o_id o = Some i
           /\ _orders m' = dict_set i o (dict_remove order_id (_orders m))
           /\ op_order o = Some order
           /\ side o <> side order
     | _ => _orders m' = dict_remove order_id (_orders m)
     end.
Proof.
  intros Hget Hfilled Hrun.
  apply (handle_fill_inv _ _ _ _ _ _ _ _ Hget Hfilled) in Hrun.
  assert (Hplaced : forall price0 s ag,
    s <> side order ->
    place_order E fuel price0 (size order) s (Some order) true true true true
                ag (set_fills (set_orders m (dict_remove order_id (_orders m)))
                              (dict_set order_id order (_fills m)))
    = (m', r) ->
    _fills m' = dict_set order_id order (_fills m)
    /\ match r with
       | Ret (Some o) =>
           exists i,
             o_id o = Some i
             /\ _orders m' = dict_set i o (dict_remove order_id (_orders m))
             /\ op_order o = Some order
             /\ side o <> side order
       | _ => _orders m' = dict_remove order_id (_orders m)
       end).
  { intros price0 s ag Hs Hplace. apply place_order_inv in Hplace.
    destruct r as [[o|]| |]; try (subst m'; simpl; auto).
    destruct Hplace as (i & sz & p1 & p & _ & _ & _ & _ & -> & ->).
    simpl. split; [reflexivity|]. exists i. auto. }
  destruct replace.
  - destruct (side order) eqn:Hside.
    + apply Hplaced in Hrun; [|discriminate].
      destruct Hrun as [Hf Hr]. split; [exact Hf|]. split; [discriminate|].
      exact Hr.
    + destruct (_ || _).
      * destruct Hrun as [-> ->]. simpl. auto.
      * apply Hplaced in Hrun; [|discriminate].
        destruct Hrun as [Hf Hr]. split; [exact Hf|].
        split; [discriminate|]. exact Hr.
  - destruct Hrun as [-> ->]. simpl. auto.
Qed.

(** X8. A fill is recorded whatever happens next. For an id that is
    not tracked, [handle_fill] raises [KeyError] and changes nothing.
    For a tracked order the exchange reports as filled, it leaves the
    fills table with the order under its id, also when the replacement
    is refused, rejected by the exchange or hangs. The registry loses
    the id and gains at most the replacement, which is of the other
    side and has the filled order as its opposite. Without [replace]
    nothing is placed. *)
Theorem handle_fill_records_fill (E : Exchange) (fuel : nat) (m : MM)
    (order_id : string) (replace : bool) :
  match dict_get order_id (_orders m) with
  | None =>
      handle_fill E fuel order_id replace m = (m, Raise (KeyError order_id))
  | Some order =>
      is_filled E order = true ->
      forall m' r,
        handle_fill E fuel order_id replace m = (m', r) ->
        _fills m' = dict_set order_id order (_fills m)
        /\ (replace = false -> r = Ret None)
        /\ match r with
           | Ret (Some o) =>
               exists i,
                 o_id o = Some i
                 /\ _orders m'
                    = dict_set i o (dict_remove order_id (_orders m))
                 /\ op_order o = Some order
                 /\ side o <> side order
           | _ => _orders m' = dict_remove order_id (_orders m)
           end
  end.
Proof.
  destruct (dict_get order_id (_orders m)) as [order|] eqn:Hget.
  - intros Hfilled m' r Hrun.
    exact (handle_fill_outcome E fuel m m' order_id order replace r
             Hget Hfilled Hrun).
  - unfold handle_fill. run_m. now rewrite Hget.
Qed.

(** ** What a cancel leaves behind *)

Lemma dict_remove_set_same (k : string) (v : Order) (d : dict) :
  dict_remove k (dict_set k v d) = dict_remove k d.
Proof.
  induction d as [|[k' v'] d IH]; simpl.
  - now rewrite String.eqb_refl.
  - destruct (String.eqb k k') eqn:Hk; simpl;
      rewrite ?String.eqb_refl, ?Hk; simpl; [reflexivity|].
    now rewrite IH.
Qed.

Lemma dict_remove_idem (k : string) (d : dict) :
  dict_remove k (dict_remove k d) = dict_remove k d.
Proof. apply dict_remove_absent, dict_get_remove. Qed.

(** X9. Unless the exchange answers that the order is "done",
    [cancel_order] leaves the id untracked and the fills table as it
    was, also when the cancel is rejected and the call raises; it never
    hangs. It returns only the order that was tracked under the id, and
    only when the exchange answered with a list headed by that id or by
    [None], or with a "not found" error. *)
Theorem cancel_order_untracks (E : Exchange) (fuel : nat) (m m' : MM)
    (order_id : string) (r : outcome (option Order)) :
  (forall o msg, dict_get order_id (_orders m) = Some o ->
                 ex_cancel E o = inl (GdaxAPIError msg) ->
                 str_in "done" msg = false) ->
  cancel_order E fuel order_id m = (m', r) ->
  _orders m' = dict_remove order_id (_orders m)
  /\ _fills m' = _fills m
  /\ dict_get order_id (_orders m') = None
  /\ r <> Diverge
  /\ forall x, r = Ret x ->
       exists o,
         x = Some o /\ dict_get order_id (_orders m) = Some o
         /\ ((exists rest, ex_cancel E o = inr (None :: rest))
             \/ (exists rest, ex_cancel E o = inr (Some order_id :: rest))
             \/ (exists msg, ex_cancel E o = inl (GdaxAPIError msg)
                             /\ str_in "not found" msg = true)).
Proof.
  intros Hdone. unfold cancel_order. run_m.
  destruct (dict_get order_id (_orders m)) as [o|] eqn:Hget.
  - specialize (Hdone o).
    destruct (ex_cancel E o) as [e|check] eqn:Hcancel.
    + destruct e as [k| | | | | |msg|msg];
        try (intros [= <- <-]; simpl; rewrite dict_get_remove;
             repeat split; try discriminate).
      rewrite (Hdone msg eq_refl eq_refl).
      destruct (str_in "not found" msg) eqn:Hnf;
        intros [= <- <-]; simpl; rewrite dict_get_remove;
        repeat split; try discriminate.
      intros x [= <-]. exists o. repeat split. right. right. eauto.
    + destruct check as [|[i|] rest].
      * intros [= <- <-]; simpl; rewrite dict_get_remove;
          repeat split; discriminate.
      * destruct (String.eqb_spec i order_id) as [->|Hne];
          intros [= <- <-]; simpl; rewrite dict_get_remove;
          repeat split; try discriminate.
        intros x [= <-]. exists o. repeat split. right. left. eauto.
      * intros [= <- <-]; simpl; rewrite dict_get_remove;
          repeat split; try discriminate.
        intros x [= <-]. exists o. repeat split. left. eauto.
  - intros [= <- <-]. simpl. rewrite dict_get_remove.
    repeat split; discriminate.
Qed.

(** X10. A cancel that the exchange answers with "done" is handled as a
    fill. If the exchange reports the order filled, the order ends in
    the fills table under its id, the registry loses the id and gains
    at most a replacement whose opposite is the order, and a call that
    returns gives back the order. If the exchange does not report it
    filled, the call raises and the order is in neither table. *)
Theorem cancel_order_done (E : Exchange) (fuel : nat) (m m' : MM)
    (order_id msg : string) (o : Order) (r : outcome (option Order)) :
  dict_get order_id (_orders m) = Some o ->
  ex_cancel E o = inl (GdaxAPIError msg) ->
  str_in "done" msg = true ->
  cancel_order E fuel order_id m = (m', r) ->
  if is_filled E o then
    _fills m' = dict_set order_id o (_fills m)
    /\ (_orders m' = dict_remove order_id (_orders m)
        \/ exists i n, _orders m'
                       = dict_set i n (dict_remove order_id (_orders m))
                       /\ o_id n = Some i /\ op_order n = Some o)
    /\ forall x, r = Ret x -> x = Some o
  else
    r = Raise (Exception "Order is not filled.")
    /\ _fills m' = _fills m
    /\ _orders m' = dict_remove order_id (_orders m).
Proof.
  intros Hget Hcancel Hdone. unfold cancel_order. run_m.
  rewrite Hget, Hcancel, Hdone. simpl.
  set (m2 := set_orders
               (set_orders m (dict_remove order_id (_orders m)))
               (dict_set order_id o (dict_remove order_id (_orders m)))).
  assert (Hget2 : dict_get order_id (_orders m2) = Some o)
    by apply dict_get_set_same.
  assert (Hrem : dict_remove order_id (_orders m2)
                 = dict_remove order_id (_orders m)).
  { unfold m2. simpl. now rewrite dict_remove_set_same, dict_remove_idem. }
  destruct (handle_fill E fuel order_id true m2) as [m3 r3] eqn:Hfill.
  destruct (is_filled E o) eqn:Hfilled.
  - pose proof (handle_fill_outcome _ _ _ _ _ _ _ _ Hget2 Hfilled Hfill)
      as (Hfills & _ & Hreg).
    rewrite Hrem in Hreg.
    destruct r3 as [[n|]| |]; intros [= <- <-].
    + split; [exact Hfills|]. split; [|now intros x [= <-]].
      destruct Hreg as (i & Hid & Horders & Hop & _). right. eauto.
    + split; [exact Hfills|]. split; [now left|now intros x [= <-]].
    + split; [exact Hfills|]. split; [now left|discriminate].
    + split; [exact Hfills|]. split; [now left|discriminate].
  - revert Hfill. unfold handle_fill. run_m. rewrite Hget2, Hfilled. simpl.
    intros [= <- <-] [= <- <-]. simpl.
    rewrite dict_remove_set_same, dict_remove_idem. auto.
Qed.

(** ** Properties kept by every operation *)

Lemma keeps_ret {A} (P : MM -> Prop) (a : A) : keeps P (ret a).
Proof. intros m Hm. exact Hm. Qed.

Lemma keeps_raise {A} (P : MM -> Prop) (e : exn) : keeps P (@raise A e).
Proof. intros m Hm. exact Hm. Qed.

Lemma keeps_lift {A} (P : MM -> Prop) (r : outcome A) : keeps P (lift r).
Proof. intros m Hm. exact Hm. Qed.

Lemma keeps_get (P : MM -> Prop) : keeps P get_mm.
Proof. intros m Hm. exact Hm. Qed.

Lemma keeps_bind {A B} (P : MM -> Prop) (c : M A) (f : A -> M B) :
  keeps P c -> (forall a, keeps P (f a)) -> keeps P (bind c f).
Proof.
  intros Hc Hf m Hm. unfold bind. specialize (Hc m Hm).
  destruct (c m) as [m1 [a| |]]; simpl in *; auto. now apply Hf.
Qed.

Lemma keeps_for_each {A} (P : MM -> Prop) (f : A -> M unit) (l : list A) :
  (forall a, keeps P (f a)) -> keeps P (for_each f l).
Proof.
  intros Hf. induction l as [|a l IH]; simpl.
  - apply keeps_ret.
  - apply keeps_bind; auto.
Qed.

Section Kept.

Variable E : Exchange.
Variable P : MM -> Prop.

(** The five ways the engine writes its state. *)
Hypothesis P_file : forall m i o,
  P m -> o_id o = Some i -> P (set_orders m (dict_set i o (_orders m))).
Hypothesis P_remove : forall m k,
  P m -> P (set_orders m (dict_remove k (_orders m))).
Hypothesis P_fill : forall m k o,
  P m -> P (set_fills m (dict_set k o (_fills m))).
Hypothesis P_back : forall m k o,
  P m -> dict_get k (_orders m) = Some o ->
  P (set_orders m (dict_set k o (dict_remove k (_orders m)))).
Hypothesis P_ticker : forall m t, P m -> P (set_last_ticker m t).

Lemma place_order_keeps (fuel : nat) (price0 size0 : Q) (s : Side)
    (op : option Order) (avo avw cs ct ag : bool) :
  keeps P (place_order E fuel price0 size0 s op avo avw cs ct ag).
Proof.
  intros m Hm.
  destruct (place_order E fuel price0 size0 s op avo avw cs ct ag m)
    as [m' r] eqn:Hrun.
  apply place_order_inv in Hrun. simpl.
  destruct r as [[o|]| |]; try (now subst m').
  destruct Hrun as (i & sz & p1 & p & _ & _ & _ & _ & -> & ->).
  now apply P_file.
Qed.

Lemma handle_fill_keeps (fuel : nat) (order_id : string) (replace : bool) :
  keeps P (handle_fill E fuel order_id replace).
Proof.
  intros m Hm. unfold handle_fill. run_m.
  destruct (dict_get order_id (_orders m)) as [order|]; [|exact Hm].
  simpl. destruct (is_filled E order); simpl; [|now apply P_remove].
  assert (Hm1 : P (set_fills (set_orders m (dict_remove order_id (_orders m)))
                             (dict_set order_id order (_fills m))))
    by (apply (P_fill (set_orders m (dict_remove order_id (_orders m))));
        now apply P_remove).
  destruct replace; [|exact Hm1].
  destruct (side order); simpl.
  - now apply place_order_keeps.
  - destruct (_ || _); simpl; [exact Hm1|]. now apply place_order_keeps.
Qed.

Lemma cancel_order_keeps (fuel : nat) (order_id : string) :
  keeps P (cancel_order E fuel order_id).
Proof.
  intros m Hm. unfold cancel_order. run_m.
  pose proof (P_remove m order_id Hm) as Hm1.
  destruct (dict_get order_id (_orders m)) as [o|] eqn:Hget; [|exact Hm1].
  destruct (ex_cancel E o) as [e|check].
  - destruct e as [k| | | | | |msg|msg]; try exact Hm1.
    destruct (str_in "done" msg).
    + pose proof (P_back m order_id o Hm Hget) as Hm2.
      exact (keeps_bind P (handle_fill E fuel order_id true)
               (fun _ => ret (Some o))
               (handle_fill_keeps fuel order_id true)
               (fun _ => keeps_ret P (Some o)) _ Hm2).
    + now destruct (str_in "not found" msg).
  - destruct check as [|[i|] rest]; try exact Hm1.
    now destruct (String.eqb i order_id).
Qed.

Lemma cancel_order_of_keeps (fuel : nat) (o : Order) :
  keeps P (cancel_order_of E fuel o).
Proof.
  unfold cancel_order_of. destruct (o_id o).
  - apply cancel_order_keeps.
  - apply keeps_raise.
Qed.

Lemma orders_keeps (fuel : nat) : keeps P (orders E fuel).
Proof.
  unfold orders. apply keeps_bind; [apply keeps_get|]. intros m0.
  apply keeps_bind.
  { apply keeps_for_each. intros k. apply keeps_bind.
    - apply handle_fill_keeps.
    - intros. apply keeps_ret. }
  intros _. apply keeps_bind; [apply keeps_get|]. intros m1.
  apply keeps_bind.
  { destruct (manage_existing_orders m1); [|apply keeps_ret].
    apply keeps_for_each. intros od.
    destruct (negb _); [apply keeps_ret|].
    intros m Hm. unfold bind, get_mm, put_mm. simpl.
    now apply P_file. }
  intros _. apply keeps_bind; [apply keeps_get|]. intros. apply keeps_ret.
Qed.

Lemma shift_one_keeps (fuel : nat) (exclude : list string) (p spread : Q)
    (acc : ShiftAcc) (order_id : string) (order : Order) :
  keeps P (shift_one E fuel exclude p spread acc order_id order).
Proof.
  unfold shift_one. destruct (str_mem order_id exclude); [apply keeps_ret|].
  apply keeps_bind; [apply keeps_get|]. intros m0.
  match goal with
  | |- keeps P (if ?b then _ else _) => destruct b; [apply keeps_ret|]
  end.
  apply keeps_bind; [apply keeps_lift|]. intros check_price.
  assert (Hreplace : forall price0 cs,
    keeps P (cancel_order_of E fuel order ;;;
             new_order <- place_order E fuel price0 (size order) (side order)
                            (Some order) false true cs true true ;;
             ret (mkShiftAcc (cancels acc) (new_orders acc ++ [new_order])))).
  { intros price0 cs. apply keeps_bind; [apply cancel_order_of_keeps|].
    intros _. apply keeps_bind; [apply place_order_keeps|].
    intros. apply keeps_ret. }
  destruct (side order);
    repeat match goal with
           | |- keeps P (if ?b then _ else _) => destruct b
           end;
    try apply keeps_ret; apply Hreplace.
Qed.

Lemma shift_loop_keeps (fuel : nat) (exclude : list string) (p spread : Q)
    (items : dict) (acc : ShiftAcc) :
  keeps P (shift_loop E fuel exclude p spread acc items).
Proof.
  revert acc. induction items as [|[k o] items IH]; intros acc; simpl.
  - apply keeps_ret.
  - apply keeps_bind; [apply shift_one_keeps|]. intros acc'. apply IH.
Qed.

Lemma shift_orders_keeps (fuel : nat) (exclude : option (list string)) :
  keeps P (shift_orders E fuel exclude).
Proof.
  unfold shift_orders. apply keeps_bind; [apply orders_keeps|].
  intros d. destruct d as [|x d]; [apply keeps_ret|].
  intros m Hm. unfold bind at 1. unfold get_mm at 1.
  pose proof (P_ticker m
                (Some (match ticker E with Some t => t | None => 0 end)) Hm)
    as Hm1.
  destruct (negb (truthy_opt (_last_ticker m)) && _); [exact Hm1|].
  destruct (negb _ && _); [|exact Hm].
  unfold bind at 1. unfold put_mm at 1.
  unfold bind at 1. unfold get_mm at 1.
  match goal with
  | |- P (fst (bind (shift_loop E fuel ?ex ?p ?sp ?acc ?items) ?k ?m1)) =>
      exact (keeps_bind P (shift_loop E fuel ex p sp acc items) k
               (shift_loop_keeps fuel ex p sp items acc)
               (fun a => keeps_ret P _) m1 Hm1)
  end.
Qed.

(** The five entry points together. *)
Lemma engine_keeps (fuel : nat) (m : MM) :
  P m ->
  (forall price0 size0 s op avo avw cs ct ag,
     P (fst (place_order E fuel price0 size0 s op avo avw cs ct ag m)))
  /\ (forall order_id replace, P (fst (handle_fill E fuel order_id replace m)))
  /\ (forall order_id, P (fst (cancel_order E fuel order_id m)))
  /\ P (fst (orders E fuel m))
  /\ (forall exclude, P (fst (shift_orders E fuel exclude m))).
Proof.
  intros Hm. repeat split; intros.
  - now apply place_order_keeps.
  - now apply handle_fill_keeps.
  - now apply cancel_order_keeps.
  - now apply orders_keeps.
  - now apply shift_orders_keeps.
Qed.

End Kept.

(** X11. Every tracked order stays filed under its own id: if that
    holds of the registry, it holds after [place_order], [handle_fill],
    [cancel_order], the [orders] refresh and [shift_orders], however
    the call ends. *)
Theorem registry_stays_keyed (E : Exchange) (fuel : nat) (m : MM) :
  registry_keyed m ->
  (forall price0 size0 s op avo avw cs ct ag,
     registry_keyed
       (fst (place_order E fuel price0 size0 s op avo avw cs ct ag m)))
  /\ (forall order_id replace,
        registry_keyed (fst (handle_fill E fuel order_id replace m)))
  /\ (forall order_id, registry_keyed (fst (cancel_order E fuel order_id m)))
  /\ registry_keyed (fst (orders E fuel m))
  /\ (forall exclude,
        registry_keyed (fst (shift_orders E fuel exclude m))).
Proof.
  apply engine_keeps; unfold registry_keyed; simpl.
  - intros m0 i o Hm0 Hid k o'.
    destruct (String.eqb_spec k i) as [->|Hne].
    + rewrite dict_get_set_same. now intros [= <-].
    + rewrite dict_get_set_other by exact Hne. apply Hm0.
  - intros m0 k Hm0 k' o' Hget.
    apply dict_get_remove_some in Hget. now apply Hm0.
  - auto.
  - intros m0 k o Hm0 Hget k' o'.
    destruct (String.eqb_spec k' k) as [->|Hne].
    + rewrite dict_get_set_same. intros [= <-]. now apply Hm0.
    + rewrite dict_get_set_other by exact Hne. intros Hget'.
      apply dict_get_remove_some in Hget'. now apply Hm0.
  - auto.
Qed.

(** X12. A recorded fill is never dropped: an id with an entry in the
    fills table still has one after [place_order], [handle_fill],
    [cancel_order], the [orders] refresh and [shift_orders], however
    the call ends. *)
Theorem fills_are_kept (E : Exchange) (fuel : nat) (m : MM) :
  (forall price0 size0 s op avo avw cs ct ag,
     fills_kept m
       (fst (place_order E fuel price0 size0 s op avo avw cs ct ag m)))
  /\ (forall order_id replace,
        fills_kept m (fst (handle_fill E fuel order_id replace m)))
  /\ (forall order_id, fills_kept m (fst (cancel_order E fuel order_id m)))
  /\ fills_kept m (fst (orders E fuel m))
  /\ (forall exclude, fills_kept m (fst (shift_orders E fuel exclude m))).
Proof.
  apply (engine_keeps E (fills_kept m)); unfold fills_kept; simpl; auto.
  intros m0 k o Hm0 k' Hk'.
  destruct (String.eqb_spec k' k) as [->|Hne].
  - now rewrite dict_get_set_same.
  - rewrite dict_get_set_other by exact Hne. now apply Hm0.
Qed.

(** X13. The configuration is never written: the spreads, the stop and
    spend fractions, the caps and the two flags are the same after
    [place_order], [handle_fill], [cancel_order], the [orders] refresh
    and [shift_orders], however the call ends. *)
Theorem config_is_kept (E : Exchange) (fuel : nat) (m : MM) :
  (forall price0 size0 s op avo avw cs ct ag,
     same_config m
       (fst (place_order E fuel price0 size0 s op avo avw cs ct ag m)))
  /\ (forall order_id replace,
        same_config m (fst (handle_fill E fuel order_id replace m)))
  /\ (forall order_id, same_config m (fst (cancel_order E fuel order_id m)))
  /\ same_config m (fst (orders E fuel m))
  /\ (forall exclude, same_config m (fst (shift_orders E fuel exclude m))).
Proof.
  apply (engine_keeps E (same_config m)); unfold same_config; simpl; auto.
  repeat split; reflexivity.
Qed.

(** ** The refresh of the registry *)

Lemma str_mem_In (k : string) (l : list string) :
  str_mem k l = true <-> In k l.
Proof.
  unfold str_mem. rewrite existsb_exists. split.
  - intros (x & Hx & Heq). apply String.eqb_eq in Heq. now subst.
  - intros Hk. exists k. split; [exact Hk|apply String.eqb_refl].
Qed.

Lemma dict_get_keys (k : string) (d : dict) :
  dict_get k d <> None <-> In k (keys d).
Proof.
  induction d as [|[k' v] d IH]; simpl.
  - split; [congruence|intros []].
  - destruct (String.eqb_spec k k') as [->|Hne].
    + split; [now left|discriminate].
    + rewrite IH. split; [now right|]. intros [Heq|Hin]; congruence.
Qed.

(** The loop of the refresh that adopts the listed orders whose id is
    in [new_keys]. *)
Lemma adopt_loop (new_keys : list string) (l : list OrderData) (m0 : MM) :
  let adopt := fun o_data =>
    if negb (str_mem (d_id o_data) new_keys) then ret tt
    else
      let o := GdaxMMOrder (Some (d_id o_data)) (d_side o_data)
                           (d_price o_data) (d_size o_data) None in
      m <- get_mm ;;
      put_mm (set_orders m (dict_set (d_id o_data) o (_orders m))) in
  let m1 := fst (for_each adopt l m0) in
  snd (for_each adopt l m0) = Ret tt
  /\ _fills m1 = _fills m0
  /\ (l = [] -> m1 = m0)
  /\ (forall k, ~ In k new_keys ->
        dict_get k (_orders m1) = dict_get k (_orders m0))
  /\ (forall k, dict_get k (_orders m0) <> None ->
        dict_get k (_orders m1) <> None)
  /\ (forall od, In od l -> In (d_id od) new_keys ->
        dict_get (d_id od) (_orders m1) <> None)
  /\ (forall k o, dict_get k (_orders m1) = Some o ->
        dict_get k (_orders m0) = Some o
        \/ exists od, In od l /\ d_id od = k
                      /\ o = GdaxMMOrder (Some k) (d_side od) (d_price od)
                                         (d_size od) None).
Proof.
  intros adopt. revert m0. induction l as [|od l IH]; intros m0.
  - simpl. repeat split; auto.
  - destruct (str_mem (d_id od) new_keys) eqn:Hmem.
    + set (o := GdaxMMOrder (Some (d_id od)) (d_side od) (d_price od)
                            (d_size od) None).
      set (m0' := set_orders m0 (dict_set (d_id od) o (_orders m0))).
      assert (Hstep : for_each adopt (od :: l) m0 = for_each adopt l m0').
      { simpl. unfold bind at 1. unfold adopt at 1. now rewrite Hmem. }
      rewrite Hstep.
      destruct (IH m0') as (Hret & Hfills & _ & Hout & Hkeep & Hin & Hfrom).
      apply str_mem_In in Hmem.
      split; [exact Hret|]. split; [exact Hfills|].
      split; [discriminate|]. split; [|split; [|split]].
      * intros k Hk. rewrite (Hout k Hk). unfold m0'. simpl.
        apply dict_get_set_other. intros ->. contradiction.
      * intros k Hk. apply Hkeep. unfold m0'. simpl.
        destruct (String.eqb_spec k (d_id od)) as [->|Hne].
        -- now rewrite dict_get_set_same.
        -- now rewrite dict_get_set_other.
      * intros od' [<-|Hod'] Hnk.
        -- apply Hkeep. unfold m0'. simpl. now rewrite dict_get_set_same.
        -- now apply Hin.
      * intros k o' Hget.
        destruct (Hfrom k o' Hget) as [Hold|(od' & ? & ? & ?)].
        -- unfold m0' in Hold. simpl in Hold.
           destruct (String.eqb_spec k (d_id od)) as [->|Hne].
           ++ rewrite dict_get_set_same in Hold. injection Hold as <-.
              right. exists od. split; [now left|]. auto.
           ++ rewrite dict_get_set_other in Hold by exact Hne. now left.
        -- right. exists od'. split; [now right|]. auto.
    + assert (Hstep : for_each adopt (od :: l) m0 = for_each adopt l m0).
      { simpl. unfold bind at 1. unfold adopt at 1. now rewrite Hmem. }
      rewrite Hstep.
      destruct (IH m0) as (Hret & Hfills & _ & Hout & Hkeep & Hin & Hfrom).
      split; [exact Hret|]. split; [exact Hfills|].
      split; [discriminate|]. split; [exact Hout|]. split; [exact Hkeep|].
      split.
      * intros od' [<-|Hod'] Hnk.
        -- apply str_mem_In in Hnk. congruence.
        -- now apply Hin.
      * intros k o' Hget.
        destruct (Hfrom k o' Hget) as [Hold|(od' & ? & ? & ?)].
        -- now left.
        -- right. exists od'. split; [now right|]. auto.
Qed.

(** X14. A refresh with every tracked id still listed as open handles
    no fill: it returns the registry it leaves, the fills table is
    untouched and every tracked order stays as it is. Without
    [manage_existing_orders] nothing changes at all; with it every
    listed id is tracked afterwards, and the only new entries are
    orders built from rows of the listing, without opposite. *)
Theorem refresh_without_fills (E : Exchange) (fuel : nat) (m : MM) :
  (forall k, In k (keys (_orders m)) -> In k (map d_id (get_orders E))) ->
  let m' := fst (orders E fuel m) in
  snd (orders E fuel m) = Ret (_orders m')
  /\ _fills m' = _fills m
  /\ (forall k o, dict_get k (_orders m) = Some o ->
        dict_get k (_orders m') = Some o)
  /\ (forall k o, dict_get k (_orders m') = Some o ->
        dict_get k (_orders m) = Some o
        \/ (manage_existing_orders m = true
            /\ exists od, In od (get_orders E) /\ d_id od = k
                          /\ o = GdaxMMOrder (Some k) (d_side od) (d_price od)
                                             (d_size od) None))
  /\ (manage_existing_orders m = true ->
      forall od, In od (get_orders E) ->
                 dict_get (d_id od) (_orders m') <> None)
  /\ (manage_existing_orders m = false -> m' = m).
Proof.
  intros Hopen.
  assert (Hfilled :
    filter (fun o_id => negb (str_mem o_id (map d_id (get_orders E))))
           (keys (_orders m)) = []).
  { apply filter_all_false. intros k Hk. apply negb_false_iff.
    apply str_mem_In. now apply Hopen. }
  set (new_keys :=
         map d_id
             (filter (fun o => negb (str_mem (d_id o) (keys (_orders m))))
                     (get_orders E))).
  pose proof (adopt_loop new_keys (get_orders E) m) as Hloop.
  cbv zeta in Hloop.
  destruct Hloop as (Hret & Hfills & _ & Hout & Hkeep & Hin & Hfrom).
  match type of Hret with
  | snd (for_each ?f _ _) = _ => set (adopt := f) in *
  end.
  assert (Heq : orders E fuel m
                = (let m1 := if manage_existing_orders m
                             then fst (for_each adopt (get_orders E) m)
                             else m in
                   (m1, Ret (_orders m1)))).
  { unfold orders. unfold bind at 1. unfold get_mm at 1. rewrite Hfilled.
    simpl for_each. unfold bind at 1. unfold ret at 1.
    unfold bind at 1. unfold get_mm at 1.
    destruct (manage_existing_orders m); [|reflexivity].
    fold new_keys. fold adopt. unfold bind at 1.
    destruct (for_each adopt (get_orders E) m) as [m1 r1].
    simpl in Hret. now subst r1. }
  rewrite Heq. clear Heq. cbv zeta.
  destruct (manage_existing_orders m) eqn:Hmanage; simpl.
  - assert (Htracked : forall k, dict_get k (_orders m) <> None ->
                                 ~ In k new_keys).
    { intros k Hk Hnk. unfold new_keys in Hnk.
      apply in_map_iff in Hnk. destruct Hnk as (od & <- & Hod).
      apply filter_In in Hod. destruct Hod as [_ Hnot].
      apply negb_true_iff in Hnot.
      apply dict_get_keys, str_mem_In in Hk. congruence. }
    split; [reflexivity|]. split; [exact Hfills|]. split; [|split; [|split]].
    + intros k o Hget. rewrite Hout; [exact Hget|].
      apply Htracked. congruence.
    + intros k o Hget. destruct (Hfrom k o Hget) as [Hold|Hnew]; auto.
    + intros _ od Hod.
      destruct (dict_get (d_id od) (_orders m)) as [o|] eqn:Hget.
      * apply Hkeep. congruence.
      * apply Hin; [exact Hod|]. unfold new_keys.
        apply in_map_iff. exists od. split; [reflexivity|].
        apply filter_In. split; [exact Hod|]. apply negb_true_iff.
        destruct (str_mem (d_id od) (keys (_orders m))) eqn:Hmem;
          [|reflexivity].
        apply str_mem_In, dict_get_keys in Hmem. congruence.
    + discriminate.
  - repeat split; auto. intros [=].
Qed.

(** With no new id to adopt the loop of the refresh does nothing. *)
Lemma adopt_nothing (l : list OrderData) (m0 : MM) :
  for_each
    (fun o_data =>
       if negb (str_mem (d_id o_data) []) then ret tt
       else
         let o := GdaxMMOrder (Some (d_id o_data)) (d_side o_data)
                              (d_price o_data) (d_size o_data) None in
         m <- get_mm ;;
         put_mm (set_orders m (dict_set (d_id o_data) o (_orders m))))
    l m0
  = (m0, Ret tt).
Proof.
  induction l as [|od l IH]; [reflexivity|].
  simpl. unfold bind at 1. unfold ret at 1. exact IH.
Qed.

(** A refresh that handles no fill is the adoption loop alone. *)
Lemma refresh_run (E : Exchange) (fuel : nat) (m : MM) :
  (forall k, In k (keys (_orders m)) -> In k (map d_id (get_orders E))) ->
  orders E fuel m
  = (let new_keys :=
       map d_id
           (filter (fun o => negb (str_mem (d_id o) (keys (_orders m))))
                   (get_orders E)) in
     let m1 :=
       if manage_existing_orders m then
         fst (for_each
                (fun o_data =>
                   if negb (str_mem (d_id o_data) new_keys) then ret tt
                   else
                     let o := GdaxMMOrder (Some (d_id o_data)) (d_side o_data)
                                          (d_price o_data) (d_size o_data)
                                          None in
                     m <- get_mm ;;
                     put_mm (set_orders m
                               (dict_set (d_id o_data) o (_orders m))))
                (get_orders E) m)
       else m in
     (m1, Ret (_orders m1))).
Proof.
  intros Hopen.
  assert (Hfilled :
    filter (fun o_id => negb (str_mem o_id (map d_id (get_orders E))))
           (keys (_orders m)) = []).
  { apply filter_all_false. intros k Hk. apply negb_false_iff.
    apply str_mem_In. now apply Hopen. }
  set (new_keys :=
         map d_id
             (filter (fun o => negb (str_mem (d_id o) (keys (_orders m))))
                     (get_orders E))).
  pose proof (adopt_loop new_keys (get_orders E) m) as Hloop.
  cbv zeta in Hloop. destruct Hloop as (Hret & _).
  match type of Hret with
  | snd (for_each ?f _ _) = _ => set (adopt := f) in *
  end.
  unfold orders. unfold bind at 1. unfold get_mm at 1. rewrite Hfilled.
  simpl for_each. unfold bind at 1. unfold ret at 1.
  unfold bind at 1. unfold get_mm at 1.
  destruct (manage_existing_orders m); [|reflexivity].
  fold new_keys. fold adopt. unfold bind at 1.
  destruct (for_each adopt (get_orders E) m) as [m1 r1].
  simpl in Hret. now subst r1.
Qed.

(** X24. A refresh that handles no fill is idempotent: when every
    tracked id is listed as open, refreshing again against the same
    listing returns the same registry and leaves the state as the first
    refresh left it. *)
Theorem refresh_twice (E : Exchange) (fuel : nat) (m : MM) :
  (forall k, In k (keys (_orders m)) -> In k (map d_id (get_orders E))) ->
  orders E fuel (fst (orders E fuel m))
  = (fst (orders E fuel m), Ret (_orders (fst (orders E fuel m)))).
Proof.
  intros Hopen. rewrite (refresh_run E fuel m Hopen). cbv zeta.
  destruct (manage_existing_orders m) eqn:Hmanage; simpl fst.
  - set (new_keys :=
           map d_id
               (filter (fun o => negb (str_mem (d_id o) (keys (_orders m))))
                       (get_orders E))).
    pose proof (adopt_loop new_keys (get_orders E) m) as Hloop.
    cbv zeta in Hloop.
    destruct Hloop as (_ & _ & _ & _ & Hkeep & Hin & Hfrom).
    match type of Hkeep with
    | context [for_each ?f _ _] => set (adopt := f) in *
    end.
    assert (Hconfig : keeps (fun x => manage_existing_orders x = true)
                            (for_each adopt (get_orders E))).
    { apply keeps_for_each. intros od. unfold adopt.
      destruct (negb _); [apply keeps_ret|]. intros x Hx. exact Hx. }
    specialize (Hconfig m Hmanage).
    set (m1 := fst (for_each adopt (get_orders E) m)) in *.
    assert (Hopen1 : forall k, In k (keys (_orders m1)) ->
                               In k (map d_id (get_orders E))).
    { intros k Hk. apply dict_get_keys in Hk.
      destruct (dict_get k (_orders m1)) as [o|] eqn:Hget; [|congruence].
      destruct (Hfrom k o Hget) as [Hold|(od & Hod & <- & _)].
      - apply Hopen, dict_get_keys. congruence.
      - now apply in_map. }
    assert (Hnone :
      filter (fun o => negb (str_mem (d_id o) (keys (_orders m1))))
             (get_orders E) = []).
    { apply filter_all_false. intros od Hod. apply negb_false_iff.
      apply str_mem_In, dict_get_keys.
      destruct (dict_get (d_id od) (_orders m)) as [o|] eqn:Hget.
      - apply Hkeep. congruence.
      - apply Hin; [exact Hod|]. unfold new_keys.
        apply in_map_iff. exists od. split; [reflexivity|].
        apply filter_In. split; [exact Hod|]. apply negb_true_iff.
        destruct (str_mem (d_id od) (keys (_orders m))) eqn:Hmem;
          [|reflexivity].
        apply str_mem_In, dict_get_keys in Hmem. congruence. }
    rewrite (refresh_run E fuel m1 Hopen1). cbv zeta.
    rewrite Hconfig, Hnone. simpl map. now rewrite adopt_nothing.
  - rewrite (refresh_run E fuel m Hopen). cbv zeta. now rewrite Hmanage.
Qed.

(** X15. An order that is gone from the listing without being filled
    stops the refresh. When some tracked id is not listed as open and
    none of the tracked orders missing from the listing is reported
    filled, [orders] raises, having dropped one of them from the
    registry and changed nothing else. *)
Theorem refresh_raises_on_lost_order (E : Exchange) (fuel : nat) (m : MM) :
  (exists k, In k (keys (_orders m)) /\ ~ In k (map d_id (get_orders E))) ->
  (forall k o, dict_get k (_orders m) = Some o ->
               ~ In k (map d_id (get_orders E)) -> is_filled E o = false) ->
  exists k o,
    dict_get k (_orders m) = Some o
    /\ ~ In k (map d_id (get_orders E))
    /\ orders E fuel m
       = (set_orders m (dict_remove k (_orders m)),
          Raise (Exception "Order is not filled.")).
Proof.
  intros (k0 & Hk0 & Hgone0) Hunfilled.
  destruct (filter (fun o_id => negb (str_mem o_id (map d_id (get_orders E))))
                   (keys (_orders m))) as [|k rest] eqn:Hfilter.
  - exfalso.
    assert (Hin : In k0 (filter (fun o_id =>
                    negb (str_mem o_id (map d_id (get_orders E))))
                    (keys (_orders m)))).
    { apply filter_In. split; [exact Hk0|]. apply negb_true_iff.
      destruct (str_mem k0 (map d_id (get_orders E))) eqn:Hmem;
        [|reflexivity].
      apply str_mem_In in Hmem. contradiction. }
    rewrite Hfilter in Hin. destruct Hin.
  - assert (Hin : In k (filter (fun o_id =>
                    negb (str_mem o_id (map d_id (get_orders E))))
                    (keys (_orders m))))
      by (rewrite Hfilter; now left).
    apply filter_In in Hin. destruct Hin as [Hk Hgone].
    apply negb_true_iff in Hgone.
    assert (Hnot : ~ In k (map d_id (get_orders E))).
    { intros Hopen. apply str_mem_In in Hopen. congruence. }
    apply dict_get_keys in Hk.
    destruct (dict_get k (_orders m)) as [o|] eqn:Hget; [|congruence].
    exists k, o. split; [exact Hget|]. split; [exact Hnot|].
    unfold orders. unfold bind at 1. unfold get_mm at 1. rewrite Hfilter.
    simpl for_each. unfold bind at 1 2 3. unfold handle_fill. run_m.
    rewrite Hget. simpl. now rewrite (Hunfilled k o Hget Hnot).
Qed.

(** A fill that [handle_fill] answers for is in the fills table. *)
Lemma handle_fill_ret_recorded (E : Exchange) (fuel : nat) (m m' : MM)
    (order_id : string) (replace : bool) (x : option Order) :
  handle_fill E fuel order_id replace m = (m', Ret x) ->
  dict_get order_id (_fills m') <> None.
Proof.
  intros Hrun.
  destruct (dict_get order_id (_orders m)) as [order|] eqn:Hget.
  - destruct (is_filled E order) eqn:Hfilled.
    + pose proof (handle_fill_outcome _ _ _ _ _ _ _ _ Hget Hfilled Hrun)
        as (Hfills & _).
      rewrite Hfills, dict_get_set_same. discriminate.
    + revert Hrun. unfold handle_fill. run_m. rewrite Hget, Hfilled.
      discriminate.
  - revert Hrun. unfold handle_fill. run_m. rewrite Hget. discriminate.
Qed.

(** Having an entry in the fills table under [k] is kept by the five
    ways of writing the state. *)
Lemma recorded_writes (k : string) :
  let P := fun m : MM => dict_get k (_fills m) <> None in
  (forall m i o, P m -> o_id o = Some i ->
                 P (set_orders m (dict_set i o (_orders m))))
  /\ (forall m k', P m -> P (set_orders m (dict_remove k' (_orders m))))
  /\ (forall m k' o, P m -> P (set_fills m (dict_set k' o (_fills m))))
  /\ (forall m k' o, P m -> dict_get k' (_orders m) = Some o ->
        P (set_orders m (dict_set k' o (dict_remove k' (_orders m)))))
  /\ (forall m t, P m -> P (set_last_ticker m t)).
Proof.
  simpl. repeat split; auto.
  intros m k' o Hm.
  destruct (String.eqb_spec k k') as [->|Hne].
  - now rewrite dict_get_set_same.
  - now rewrite dict_get_set_other.
Qed.

Lemma fills_loop_recorded (E : Exchange) (fuel : nat) (l : list string)
    (m0 m1 : MM) :
  for_each (fun o => handle_fill E fuel o true ;;; ret tt) l m0
    = (m1, Ret tt) ->
  forall k, In k l -> dict_get k (_fills m1) <> None.
Proof.
  revert m0. induction l as [|a l IH]; intros m0 Hrun k Hk; [destruct Hk|].
  simpl in Hrun. unfold bind at 1 2 in Hrun.
  destruct (handle_fill E fuel a true m0) as [ma [x| |]] eqn:Hfill;
    try discriminate.
  unfold ret at 1 in Hrun.
  destruct Hk as [<-|Hk].
  - apply handle_fill_ret_recorded in Hfill.
    destruct (recorded_writes a) as (H1 & H2 & H3 & H4 & H5).
    assert (Hkeeps : keeps (fun m => dict_get a (_fills m) <> None)
                           (for_each (fun o => handle_fill E fuel o true ;;;
                                               ret tt) l)).
    { apply keeps_for_each. intros o. apply keeps_bind.
      - apply handle_fill_keeps; assumption.
      - intros. apply keeps_ret. }
    specialize (Hkeeps ma Hfill). now rewrite Hrun in Hkeeps.
  - exact (IH ma Hrun k Hk).
Qed.

(** X16. When the refresh returns, every order that had gone from the
    listing is in the fills table: each tracked id that the exchange no
    longer lists as open has an entry there. *)
Theorem refresh_records_fills (E : Exchange) (fuel : nat) (m m' : MM)
    (d : dict) :
  orders E fuel m = (m', Ret d) ->
  forall k, In k (keys (_orders m)) -> ~ In k (map d_id (get_orders E)) ->
            dict_get k (_fills m') <> None.
Proof.
  intros Hrun k Hk Hgone.
  assert (Hin : In k (filter (fun o_id =>
                  negb (str_mem o_id (map d_id (get_orders E))))
                  (keys (_orders m)))).
  { apply filter_In. split; [exact Hk|]. apply negb_true_iff.
    destruct (str_mem k (map d_id (get_orders E))) eqn:Hmem; [|reflexivity].
    apply str_mem_In in Hmem. contradiction. }
  revert Hrun. unfold orders. unfold bind at 1. unfold get_mm at 1.
  unfold bind at 1.
  destruct (for_each _ _ m) as [m1 [[]| |]] eqn:Hloop; try discriminate.
  pose proof (fills_loop_recorded _ _ _ _ _ Hloop k Hin) as Hrec.
  intros Hrest.
  destruct (recorded_writes k) as (H1 & H2 & H3 & H4 & H5).
  match type of Hrest with
  | ?c m1 = _ =>
      assert (Hk1 : keeps (fun m0 => dict_get k (_fills m0) <> None) c)
  end.
  { apply keeps_bind; [apply keeps_get|]. intros m2.
    apply keeps_bind.
    - destruct (manage_existing_orders m2); [|apply keeps_ret].
      apply keeps_for_each. intros od.
      destruct (negb _); [apply keeps_ret|].
      intros m3 Hm3. unfold bind, get_mm, put_mm. simpl. exact Hm3.
    - intros _. apply keeps_bind; [apply keeps_get|].
      intros. apply keeps_ret. }
  specialize (Hk1 m1 Hrec). now rewrite Hrest in Hk1.
Qed.

(** ** Ticks on which [shift_orders] touches no order *)

(** X17. After the refresh, [shift_orders] answers [None] on an empty
    registry and passes on a failure of the refresh. On a non-empty
    registry it leaves every order alone and returns no new order when
    there is no ticker price above 0 or the ticker price is the one
    seen last; and when no ticker was seen before, it only notes the
    ticker price. *)
Theorem shift_orders_quiet (E : Exchange) (fuel : nat)
    (exclude : option (list string)) (m m1 : MM) (r : outcome dict) :
  orders E fuel m = (m1, r) ->
  let p := match ticker E with Some t => t | None => 0 end in
  match r with
  | Ret [] => shift_orders E fuel exclude m = (m1, Ret None)
  | Ret (_ :: _) =>
      (p <= 0 \/ (exists t, _last_ticker m1 = Some t /\ t == p) ->
       shift_orders E fuel exclude m = (m1, Ret (Some [])))
      /\ (0 < p -> truthy_opt (_last_ticker m1) = false ->
          shift_orders E fuel exclude m
          = (set_last_ticker m1 (Some p), Ret (Some [])))
  | Raise e => shift_orders E fuel exclude m = (m1, Raise e)
  | Diverge => shift_orders E fuel exclude m = (m1, Diverge)
  end.
Proof.
  intros Hrefresh p.
  destruct r as [[|x d]| |];
    try (unfold shift_orders; unfold bind at 1; now rewrite Hrefresh).
  split.
  - intros Hquiet.
    assert (Hfirst : negb (truthy_opt (_last_ticker m1)) && Qlt_bool 0 p
                     = false).
    { destruct Hquiet as [Hp|(t & Ht & Heq)].
      - apply andb_false_iff. right. now apply Qlt_bool_false_iff.
      - rewrite Ht. simpl. unfold truthy.
        destruct (Qeq_bool t 0) eqn:Hz; simpl; [|reflexivity].
        apply Qeq_bool_iff in Hz. apply Qlt_bool_false_iff. lra. }
    assert (Hsecond : negb (match _last_ticker m1 with
                            | Some t => Qeq_bool t p
                            | None => false
                            end) && Qlt_bool 0 p = false).
    { destruct Hquiet as [Hp|(t & Ht & Heq)].
      - apply andb_false_iff. right. now apply Qlt_bool_false_iff.
      - rewrite Ht. apply Qeq_bool_iff in Heq. now rewrite Heq. }
    unfold shift_orders. unfold bind at 1. rewrite Hrefresh.
    unfold bind at 1. unfold get_mm at 1. fold p.
    now rewrite Hfirst, Hsecond.
  - intros Hp Hlast.
    unfold shift_orders. unfold bind at 1. rewrite Hrefresh.
    unfold bind at 1. unfold get_mm at 1. fold p.
    rewrite Hlast. apply Qlt_bool_iff in Hp. rewrite Hp. reflexivity.
Qed.

Lemma shift_loop_excluded (E : Exchange) (fuel : nat)
    (exclude : list string) (p spread : Q) (items : dict) (acc : ShiftAcc)
    (m : MM) :
  (forall k, In k (keys items) -> In k exclude) ->
  shift_loop E fuel exclude p spread acc items m = (m, Ret acc).
Proof.
  induction items as [|[k o] items IH]; intros Hex; simpl; [reflexivity|].
  unfold bind, shift_one.
  assert (Hk : str_mem k exclude = true)
    by (apply str_mem_In, Hex; now left).
  rewrite Hk. simpl. apply IH. intros k' Hk'. apply Hex. now right.
Qed.

(** X18. Excluded orders are skipped: when every id tracked after the
    refresh is in [exclude], [shift_orders] cancels and places nothing.
    It returns no new order and leaves the registry and the fills table
    as the refresh left them. *)
Theorem shift_orders_all_excluded (E : Exchange) (fuel : nat)
    (exclude : list string) (m m1 : MM) (x : string * Order) (d : dict) :
  orders E fuel m = (m1, Ret (x :: d)) ->
  (forall k, In k (keys (_orders m1)) -> In k exclude) ->
  exists m',
    shift_orders E fuel (Some exclude) m = (m', Ret (Some []))
    /\ _orders m' = _orders m1 /\ _fills m' = _fills m1.
Proof.
  intros Hrefresh Hex. unfold shift_orders. unfold bind at 1.
  rewrite Hrefresh. unfold bind at 1. unfold get_mm at 1.
  destruct (negb (truthy_opt (_last_ticker m1)) && _).
  - eexists. split; [reflexivity|]. split; reflexivity.
  - destruct (negb _ && _).
    + unfold bind at 1. unfold put_mm at 1.
      unfold bind at 1. unfold get_mm at 1. unfold bind at 1.
      rewrite shift_loop_excluded by exact Hex.
      eexists. split; [reflexivity|]. split; reflexivity.
    + eexists. split; [reflexivity|]. split; reflexivity.
Qed.

Lemma shift_loop_stopped (E : Exchange) (fuel : nat)
    (exclude : list string) (p spread : Q) (items : dict) (acc : ShiftAcc)
    (m : MM) :
  (forall k o, In (k, o) items ->
     side o = sell
     /\ exists stop, stop_amount m o = Some stop
                     /\ truthy stop = true /\ p <= stop) ->
  exists acc',
    shift_loop E fuel exclude p spread acc items m = (m, Ret acc')
    /\ new_orders acc' = new_orders acc.
Proof.
  revert acc. induction items as [|[k o] items IH]; intros acc Hstop.
  - exists acc. split; reflexivity.
  - destruct (Hstop k o (or_introl eq_refl)) as (Hside & stop & Hs & Ht & Hle).
    assert (Hrest : forall k' o', In (k', o') items ->
              side o' = sell
              /\ exists stop', stop_amount m o' = Some stop'
                               /\ truthy stop' = true /\ p <= stop')
      by (intros k' o' Hin; apply (Hstop k' o'); now right).
    simpl. unfold bind at 1.
    destruct (str_mem k exclude) eqn:Hex.
    + unfold shift_one. rewrite Hex. simpl. exact (IH acc Hrest).
    + rewrite (shift_one_stopped_sell E fuel exclude p spread stop acc k o m
                 Hex Hside Hs Ht Hle).
      destruct (IH (mkShiftAcc (cancels acc ++ [(k, p + (1 # 100))])%list
                               (new_orders acc)) Hrest) as (acc' & Hrun & Hnew).
      exists acc'. split; [exact Hrun|exact Hnew].
Qed.

(** X23. Stopped sells are left on the book: when every order tracked
    after the refresh is a sell whose stop amount is not 0 and is at or
    above the ticker price, [shift_orders] cancels and places nothing.
    It returns no new order and leaves the registry and the fills table
    as the refresh left them, whatever [exclude] is. *)
Theorem shift_orders_leaves_stopped_sells (E : Exchange) (fuel : nat)
    (exclude : option (list string)) (m m1 : MM) (x : string * Order)
    (d : dict) :
  orders E fuel m = (m1, Ret (x :: d)) ->
  let p := match ticker E with Some t => t | None => 0 end in
  (forall k o, In (k, o) (_orders m1) ->
     side o = sell
     /\ exists stop, stop_amount m1 o = Some stop
                     /\ ~ stop == 0 /\ p <= stop) ->
  exists m',
    shift_orders E fuel exclude m = (m', Ret (Some []))
    /\ _orders m' = _orders m1 /\ _fills m' = _fills m1.
Proof.
  intros Hrefresh p Hstop. unfold shift_orders. unfold bind at 1.
  rewrite Hrefresh. unfold bind at 1. unfold get_mm at 1. fold p.
  destruct (negb (truthy_opt (_last_ticker m1)) && _).
  - eexists. split; [reflexivity|]. split; reflexivity.
  - destruct (negb _ && _).
    + unfold bind at 1. unfold put_mm at 1.
      unfold bind at 1. unfold get_mm at 1. unfold bind at 1.
      set (m2 := set_last_ticker m1 (Some p)).
      set (ex := match exclude with Some l => l | None => [] end).
      set (spread := if aggressive m1 then min_spread m1 else max_spread m1).
      destruct (shift_loop_stopped E fuel ex p spread (_orders m2)
                  (mkShiftAcc [] []) m2) as (acc' & Hrun & Hnew).
      { intros k o Hin. destruct (Hstop k o Hin) as (Hside & stop & Hs & Hn & Hle).
        split; [exact Hside|]. exists stop. split; [exact Hs|].
        split; [|exact Hle]. unfold truthy.
        destruct (Qeq_bool stop 0) eqn:Hz; [|reflexivity].
        apply Qeq_bool_iff in Hz. contradiction. }
      rewrite Hrun. exists m2. split; [now rewrite Hnew|].
      split; reflexivity.
    + eexists. split; [reflexivity|]. split; reflexivity.
Qed.

(** ** The cheapest tracked order *)

Lemma cheapest_fold (rest : list Order) (o : Order) :
  let best :=
    fold_left
      (fun best x => if Qlt_bool (price x) (price best) then x else best)
      rest o in
  In best (o :: rest)
  /\ forall x, In x (o :: rest) -> price best <= price x.
Proof.
  revert o. induction rest as [|y rest IH]; intros o; simpl.
  - split; [now left|]. intros x [<-|[]]. lra.
  - destruct (Qlt_bool (price y) (price o)) eqn:Hlt.
    + apply Qlt_bool_iff in Hlt.
      destruct (IH y) as [Hin Hmin]. simpl in Hin, Hmin. split.
      * destruct Hin as [Hin|Hin]; auto.
      * intros x [<-|[<-|Hx]].
        -- specialize (Hmin y (or_introl eq_refl)). lra.
        -- apply Hmin. now left.
        -- apply Hmin. now right.
    + apply Qlt_bool_false_iff in Hlt.
      destruct (IH o) as [Hin Hmin]. simpl in Hin, Hmin. split.
      * destruct Hin as [Hin|Hin]; auto.
      * intros x [<-|[<-|Hx]].
        -- apply Hmin. now left.
        -- specialize (Hmin o (or_introl eq_refl)). lra.
        -- apply Hmin. now right.
Qed.

(** X19. [lowest_open_order] is [None] exactly on an empty registry;
    otherwise it is a tracked order and no tracked order is cheaper. *)
Theorem lowest_open_order_is_cheapest (m : MM) :
  (lowest_open_order m = None <-> _orders m = [])
  /\ forall o, lowest_open_order m = Some o ->
       In o (values (_orders m))
       /\ forall x, In x (values (_orders m)) -> price o <= price x.
Proof.
  unfold lowest_open_order, values. split.
  - destruct (_orders m) as [|[k v] d]; simpl; split; congruence.
  - intros o. destruct (map snd (_orders m)) as [|v rest]; [discriminate|].
    intros [= <-]. apply cheapest_fold.
Qed.

(** ** The wall of the book *)

Lemma wall_loop_spec (s : Side) (min_idx : nat) (wall_size bump_value : Q)
    (data : list Level) (idx : nat) :
  match wall_loop s idx min_idx wall_size bump_value data with
  | None =>
      forall j lvl, nth_error data j = Some lvl ->
                    (min_idx <= idx + j)%nat -> snd lvl < wall_size
  | Some p =>
      exists j lvl,
        nth_error data j = Some lvl
        /\ (min_idx <= idx + j)%nat /\ wall_size <= snd lvl
        /\ p = match s with
               | buy => fst lvl + bump_value
               | sell => fst lvl - bump_value
               end
        /\ forall i lvl', (i < j)%nat -> nth_error data i = Some lvl' ->
                          (min_idx <= idx + i)%nat -> snd lvl' < wall_size
  end.
Proof.
  revert idx. induction data as [|c data IH]; intros idx; simpl.
  - intros j lvl Hj. now destruct j.
  - destruct (Qle_bool wall_size (snd c)) eqn:Hsize;
      destruct (min_idx <=? idx)%nat eqn:Hidx; simpl.
    + apply Qle_bool_iff in Hsize. apply Nat.leb_le in Hidx.
      destruct s; exists O, c; simpl; repeat split; auto; try lia;
        intros i lvl' Hi; lia.
    + specialize (IH (S idx)).
      apply Nat.leb_gt in Hidx.
      destruct (wall_loop s (S idx) min_idx wall_size bump_value data).
      * destruct IH as (j & lvl & Hnth & Hmin & Hwall & Hp & Hfirst).
        exists (S j), lvl. simpl. repeat split; auto; try lia.
        intros [|i] lvl' Hi Hnth' Hmin'; simpl in Hnth'.
        -- lia.
        -- apply (Hfirst i lvl'); auto; lia.
      * intros [|j] lvl Hnth Hmin; simpl in Hnth.
        -- lia.
        -- apply (IH j lvl); auto; lia.
    + specialize (IH (S idx)).
      apply Qle_bool_false_iff in Hsize.
      destruct (wall_loop s (S idx) min_idx wall_size bump_value data).
      * destruct IH as (j & lvl & Hnth & Hmin & Hwall & Hp & Hfirst).
        exists (S j), lvl. simpl. repeat split; auto; try lia.
        intros [|i] lvl' Hi Hnth' Hmin'; simpl in Hnth'.
        -- now injection Hnth' as <-.
        -- apply (Hfirst i lvl'); auto; lia.
      * intros [|j] lvl Hnth Hmin; simpl in Hnth.
        -- now injection Hnth as <-.
        -- apply (IH j lvl); auto; lia.
    + specialize (IH (S idx)).
      apply Qle_bool_false_iff in Hsize.
      destruct (wall_loop s (S idx) min_idx wall_size bump_value data).
      * destruct IH as (j & lvl & Hnth & Hmin & Hwall & Hp & Hfirst).
        exists (S j), lvl. simpl. repeat split; auto; try lia.
        intros [|i] lvl' Hi Hnth' Hmin'; simpl in Hnth'.
        -- now injection Hnth' as <-.
        -- apply (Hfirst i lvl'); auto; lia.
      * intros [|j] lvl Hnth Hmin; simpl in Hnth.
        -- now injection Hnth as <-.
        -- apply (IH j lvl); auto; lia.
Qed.

(** X20. [get_price_adjusted_to_wall] looks at the order's own side of
    the book (bids for a buy, asks for a sell). It returns [None]
    exactly when no level at index [min_idx] or deeper has a size of at
    least [wall_size]; otherwise it returns the price of the first such
    level, raised by [bump_value] for a buy and lowered by it for a
    sell. *)
Theorem wall_adjustment_spec (snap : BookSnapshot) (o : Order) (min_idx : nat)
    (wall_size bump_value : Q) :
  let data := match side o with buy => bids snap | sell => asks snap end in
  match get_price_adjusted_to_wall snap o min_idx wall_size bump_value with
  | None =>
      forall j lvl, nth_error data j = Some lvl -> (min_idx <= j)%nat ->
                    snd lvl < wall_size
  | Some p =>
      exists j lvl,
        nth_error data j = Some lvl
        /\ (min_idx <= j)%nat /\ wall_size <= snd lvl
        /\ p = match side o with
               | buy => fst lvl + bump_value
               | sell => fst lvl - bump_value
               end
        /\ forall i lvl', (i < j)%nat -> nth_error data i = Some lvl' ->
                          (min_idx <= i)%nat -> snd lvl' < wall_size
  end.
Proof.
  intros data. unfold get_price_adjusted_to_wall. fold data.
  exact (wall_loop_spec (side o) min_idx wall_size bump_value data 0).
Qed.

(** ** Profit and loss, and pairing *)

(** X21. [get_pnl] is defined exactly for an order with an opposite, it
    is a 2-decimal amount, and for an order of a size that is not
    negative it follows the price: a higher price never lowers the PnL
    of a sell and never raises the PnL of a buy. *)
Theorem get_pnl_follows_price (o : Order) (p1 p2 : Q) :
  (forall price_arg, get_pnl o price_arg = None <-> op_order o = None)
  /\ (forall price_arg a, get_pnl o price_arg = Some a -> two_decimals a)
  /\ (0 <= size o -> p1 <= p2 ->
      forall a b, get_pnl o (Some p1) = Some a ->
                  get_pnl o (Some p2) = Some b ->
                  match side o with
                  | sell => a <= b
                  | buy => b <= a
                  end).
Proof.
  unfold get_pnl. split; [|split].
  - intros price_arg. destruct (op_order o) as [op|]; [|tauto].
    destruct (side o); split; discriminate.
  - intros price_arg a. destruct (op_order o) as [op|]; [|discriminate].
    destruct (side o); intros [= <-]; apply two_decimals_round2.
  - intros Hsize Hle a b. destruct (op_order o) as [op|]; [|discriminate].
    pose proof (Qmult_le_compat_r _ _ _ Hle Hsize) as Hmul.
    destruct (side o); intros [= <-] [= <-]; apply round2_mono; lra.
Qed.

(** X22. [register_op_order] fails, with [AttributeError], exactly for
    an order of the same side that has no opposite. When it succeeds it
    changes nothing but the opposite: an order of the other side becomes
    the opposite, an order of the same side hands on its own opposite,
    and if the order passed in is paired with the other side then so is
    the result. *)
Theorem register_op_order_spec (o order : Order) :
  (register_op_order o order = inl AttributeError
   <-> side order = side o /\ op_order order = None)
  /\ (forall e, register_op_order o order = inl e -> e = AttributeError)
  /\ forall o', register_op_order o order = inr o' ->
       o_id o' = o_id o /\ side o' = side o
       /\ price o' = price o /\ size o' = size o
       /\ (side order <> side o -> op_order o' = Some order)
       /\ (side order = side o -> op_order o' = op_order order)
       /\ (opposite_sides order -> opposite_sides o').
Proof.
  unfold register_op_order, opposite_sides.
  destruct (side order) eqn:Hs, (side o) eqn:Ho,
           (op_order order) as [op|] eqn:Hop; simpl;
    (split; [split; [intros H; try discriminate H; auto
                    |intros [H1 H2]; try discriminate; auto]
            |split; [intros e [= <-]; reflexivity || idtac
                    |intros o' [= <-]; simpl; rewrite ?Ho;
                     repeat split; try congruence]]);
    try (intros e H; discriminate H);
    try (intros o' H; discriminate H).
Qed.

(** ** The further properties at work on the scenarios *)

(** A sell placed at 305.00 beside the tracked buy is filed under the
    id the exchange gave it. *)
Lemma place_order_registers_witness :
  let run := place_order buy_exchange 0 305 1 sell (Some filled_buy)
                         true true false false true buy_mm in
  _fills (fst run) = _fills buy_mm
  /\ exists i,
       o_id (placed (snd run)) = Some i
       /\ dict_get i (_orders (fst run)) = Some (placed (snd run))
       /\ (forall k, k <> i ->
             dict_get k (_orders (fst run)) = dict_get k (_orders buy_mm))
       /\ side (placed (snd run)) = sell
       /\ op_order (placed (snd run)) = Some filled_buy.
Proof.
  exact (place_order_registers buy_exchange 0 305 1 sell (Some filled_buy)
           true true false false true buy_mm _ (Ret (Some _)) eq_refl).
Defined.

(** A buy of size 1 with a balance of 10000 and an ask of 300.50 is cut
    to what 1% of the balance buys. *)
Lemma place_order_size_witness :
  let run := place_order quiet_exchange 0 300 1 buy None
                         false true true false true empty_mm in
  (exists ps,
     position_size quiet_exchange empty_mm = Ret ps /\ 1 # 100 <= ps
     /\ size (placed (snd run)) <= ps /\ size (placed (snd run)) <= 1
     /\ (size (placed (snd run)) = ps \/ size (placed (snd run)) = 1))
  /\ ~ exists m', place_order quiet_exchange 0 300 1 buy None
                              false true true false true empty_mm
                  = (m', Ret None).
Proof.
  intros run.
  destruct (place_order_size quiet_exchange 0 300 1 buy None
              false true true false true empty_mm) as [Hsize Hnone].
  split.
  - exact (Hsize (fst run) (placed (snd run)) eq_refl).
  - intros Hex. apply Hnone in Hex. destruct Hex as (_ & ps & Hps & Hlt).
    injection Hps as <-. vm_compute in Hlt. discriminate.
Defined.

(** The buy at 300.00 between peers at 300.50 and 300.25 comes back at
    301.25. *)
Lemma other_prices_never_lower_witness :
  let r := returned
             (get_price_adjusted_to_other_prices quiet_exchange empty_mm 5
                new_buy (Some [601 # 2; 1201 # 4]) true (1 # 4)
                (Some (1 # 100))) 0 in
  r == 30125 # 100
  /\ ((peer_prices empty_mm new_buy (Some [601 # 2; 1201 # 4]) = []
       /\ r = get_price_adjusted_to_spread quiet_exchange empty_mm new_buy
                None true None (8 # 10) (Some (1 # 100)))
      \/ (peer_prices empty_mm new_buy (Some [601 # 2; 1201 # 4]) <> []
          /\ round2 (get_price_adjusted_to_spread quiet_exchange empty_mm
                       new_buy None true None (8 # 10) (Some (1 # 100)))
             <= r)).
Proof.
  split; [reflexivity|].
  refine (other_prices_never_lower quiet_exchange empty_mm 5 new_buy
            (Some [601 # 2; 1201 # 4]) true (1 # 4) (Some (1 # 100)) _
            _ eq_refl).
  vm_compute. discriminate.
Defined.

(** A sell at 305.00 beside the tracked sell at 305.00, ticker 301.00:
    it moves up to 305.25, a spread and more above the ticker. *)
Lemma ticker_keeps_spread_witness :
  let p := returned
             (get_price_adjusted_to_ticker reprice_exchange reprice_mm 1
                lone_sell None None true true) 0 in
  p == 30525 # 100
  /\ 305 <= p /\ 301 + (1 # 2) <= p
  /\ exists p',
       get_price_adjusted_to_ticker reprice_exchange reprice_mm 1 lone_sell
                                    None None true true = Ret p'.
Proof.
  assert (Hspread : 0 <= (if true then min_spread reprice_mm
                          else max_spread reprice_mm))
    by (vm_compute; discriminate).
  destruct (ticker_keeps_spread reprice_exchange reprice_mm lone_sell
              None None true true Hspread) as [Hsafe Hret].
  destruct (Hsafe 1%nat _ eq_refl) as [Hup Htick].
  split; [reflexivity|]. split; [exact Hup|]. split.
  - exact (Htick 301 eq_refl).
  - exact (Hret eq_refl).
Defined.

(** The buy that lands at 299.25 is off the tracked buy at 299.50. *)
Lemma ticker_price_is_free_witness :
  ~ returned (get_price_adjusted_to_ticker buy_exchange buy_mm 1 new_buy
                None None true true) 0
    == round2 (599 # 2).
Proof.
  exact (ticker_price_is_free buy_exchange buy_mm 1 new_buy None None
           true true _ eq_refl "b-1" (open_buy "b-1" (599 # 2))
           eq_refl eq_refl).
Defined.

(** With a spread of 0.004 and no ticker, a buy at the price of the
    tracked buy has not come back after a thousand steps, as after none. *)
Lemma ticker_adjustment_stuck_witness :
  get_price_adjusted_to_ticker silent_exchange thin_mm 1000
    (open_buy "b-2" (599 # 2)) None None true true = Diverge.
Proof.
  rewrite (ticker_adjustment_stuck silent_exchange thin_mm
             (open_buy "b-2" (599 # 2)) None None true true eq_refl 1000).
  reflexivity.
Defined.


(** The same fill is in the fills table and its sell is in the registry. *)
Lemma handle_fill_records_fill_witness :
  let run := handle_fill fill_exchange 1 "b-1" true buy_mm in
  _fills (fst run) = dict_set "b-1" (open_buy "b-1" (599 # 2)) (_fills buy_mm)
  /\ exists i,
       o_id (placed (snd run)) = Some i
       /\ _orders (fst run)
          = dict_set i (placed (snd run)) (dict_remove "b-1" (_orders buy_mm))
       /\ op_order (placed (snd run)) = Some (open_buy "b-1" (599 # 2))
       /\ side (placed (snd run)) <> buy.
Proof.
  intros run.
  destruct (handle_fill_records_fill fill_exchange 1 buy_mm "b-1" true
              eq_refl (fst run) (snd run) eq_refl) as (Hfills & _ & Hreg).
  split; [exact Hfills|exact Hreg].
Defined.

(** A rejected cancel raises and leaves the sell untracked. *)
Lemma cancel_order_untracks_witness :
  let run := cancel_order rejecting_exchange 1 "s-1" reprice_mm in
  snd run = Raise GdaxOrderCancellationError
  /\ _orders (fst run) = dict_remove "s-1" (_orders reprice_mm)
  /\ _fills (fst run) = _fills reprice_mm
  /\ dict_get "s-1" (_orders (fst run)) = None.
Proof.
  intros run. split; [reflexivity|].
  assert (Hnot_done : forall o msg,
            dict_get "s-1" (_orders reprice_mm) = Some o ->
            ex_cancel rejecting_exchange o = inl (GdaxAPIError msg) ->
            str_in "done" msg = false)
    by (intros o msg _ H; discriminate H).
  destruct (cancel_order_untracks rejecting_exchange 1 reprice_mm (fst run)
              "s-1" (snd run) Hnot_done eq_refl)
    as (Horders & Hfills & Hgone & _).
  auto.
Defined.

(** A cancel answered with "done": the sell is in the fills table and a
    buy that has it as opposite is tracked. *)
Lemma cancel_order_done_witness :
  let run := cancel_order done_exchange 1 "s-1" reprice_mm in
  _fills (fst run) = dict_set "s-1" open_sell (_fills reprice_mm)
  /\ (_orders (fst run) = dict_remove "s-1" (_orders reprice_mm)
      \/ exists i n,
           _orders (fst run)
           = dict_set i n (dict_remove "s-1" (_orders reprice_mm))
           /\ o_id n = Some i /\ op_order n = Some open_sell)
  /\ snd run = Ret (Some open_sell).
Proof.
  destruct (cancel_order_done done_exchange 1 reprice_mm _
              "s-1" "order already done" open_sell _
              eq_refl eq_refl eq_refl eq_refl) as (Hfills & Hreg & _).
  split; [exact Hfills|]. split; [exact Hreg|reflexivity].
Defined.

(** The one-sell registry is keyed by id. *)
Lemma one_sell_keyed : registry_keyed reprice_mm.
Proof.
  intros k o. simpl. destruct (String.eqb_spec k "s-1") as [->|Hne].
  - now intros [= <-].
  - discriminate.
Defined.

(** After the reprice of the sell the registry is still keyed by id. *)
Lemma registry_stays_keyed_witness :
  registry_keyed (fst (shift_orders reprice_exchange 1 None reprice_mm))
  /\ registry_keyed (fst (cancel_order done_exchange 1 "s-1" reprice_mm)).
Proof.
  destruct (registry_stays_keyed reprice_exchange 1 reprice_mm one_sell_keyed)
    as (_ & _ & _ & _ & Hshift).
  destruct (registry_stays_keyed done_exchange 1 reprice_mm one_sell_keyed)
    as (_ & _ & Hcancel & _).
  split; [apply Hshift|apply Hcancel].
Defined.

(** The fill recorded by the refresh survives a later pass. *)
Lemma fills_are_kept_witness :
  let m1 := fst (orders fill_exchange 1 buy_mm) in
  dict_get "b-1" (_fills m1) <> None
  /\ dict_get "b-1" (_fills (fst (shift_orders fill_exchange 1 None m1)))
     <> None.
Proof.
  intros m1.
  assert (Hrec : dict_get "b-1" (_fills m1) <> None) by discriminate.
  split; [exact Hrec|].
  destruct (fills_are_kept fill_exchange 1 m1) as (_ & _ & _ & _ & Hshift).
  exact (Hshift None "b-1" Hrec).
Defined.

(** The configuration after the reprice is the one before it. *)
Lemma config_is_kept_witness :
  same_config reprice_mm
    (fst (shift_orders reprice_exchange 1 None reprice_mm)).
Proof.
  destruct (config_is_kept reprice_exchange 1 reprice_mm)
    as (_ & _ & _ & _ & Hshift).
  apply Hshift.
Defined.

(** The adopting maker takes over the buy it did not know of and keeps
    its own sell with its opposite. *)
Lemma refresh_without_fills_witness :
  let m' := fst (orders listing_exchange 1 adopting_mm) in
  snd (orders listing_exchange 1 adopting_mm) = Ret (_orders m')
  /\ _fills m' = []
  /\ dict_get "s-1" (_orders m') = Some open_sell
  /\ dict_get "x-9" (_orders m') <> None.
Proof.
  assert (Hopen : forall k, In k (keys (_orders adopting_mm)) ->
                            In k (map d_id (get_orders listing_exchange)))
    by (intros k [<-|[]]; now left).
  destruct (refresh_without_fills listing_exchange 1 adopting_mm Hopen)
    as (Hret & Hfills & Hkeep & _ & Hall & _).
  split; [exact Hret|]. split; [exact Hfills|]. split.
  - exact (Hkeep "s-1" open_sell eq_refl).
  - exact (Hall eq_refl (data_of "x-9" (open_buy "x-9" 299))
             (or_intror (or_introl eq_refl))).
Defined.

(** The sell is gone from the listing and not filled: the refresh raises. *)
Lemma refresh_raises_on_lost_order_witness :
  exists k o,
    dict_get k (_orders reprice_mm) = Some o
    /\ ~ In k (map d_id (get_orders quiet_exchange))
    /\ orders quiet_exchange 1 reprice_mm
       = (set_orders reprice_mm (dict_remove k (_orders reprice_mm)),
          Raise (Exception "Order is not filled.")).
Proof.
  apply refresh_raises_on_lost_order.
  - exists "s-1". split; [now left|]. intros [].
  - reflexivity.
Defined.

(** The buy is gone from the listing and filled: the refresh records it. *)
Lemma refresh_records_fills_witness :
  dict_get "b-1" (_fills (fst (orders fill_exchange 1 buy_mm))) <> None.
Proof.
  refine (refresh_records_fills fill_exchange 1 buy_mm
            (fst (orders fill_exchange 1 buy_mm))
            (returned (snd (orders fill_exchange 1 buy_mm)) [])
            eq_refl "b-1" (or_introl eq_refl) _).
  intros [].
Defined.

(** The ticker is the one seen last: nothing is shifted. *)
Lemma shift_orders_quiet_witness :
  shift_orders reprice_exchange 1 None idle_mm = (idle_mm, Ret (Some [])).
Proof.
  refine (proj1 (shift_orders_quiet reprice_exchange 1 None idle_mm idle_mm
                   (Ret one_sell) eq_refl) _).
  right. exists 301. split; reflexivity.
Defined.

(** The sell is excluded from the reprice: nothing is shifted. *)
Lemma shift_orders_all_excluded_witness :
  exists m',
    shift_orders reprice_exchange 1 (Some ["s-1"]) reprice_mm
      = (m', Ret (Some []))
    /\ _orders m' = _orders reprice_mm /\ _fills m' = _fills reprice_mm.
Proof.
  refine (shift_orders_all_excluded reprice_exchange 1 ["s-1"] reprice_mm
            reprice_mm ("s-1", open_sell) [] eq_refl _).
  intros k [<-|[]]. now left.
Defined.

(** The sell of the stop scenario has its stop at 285.00, above the
    ticker at 284.50: it stays tracked and nothing replaces it. *)
Lemma shift_orders_leaves_stopped_sells_witness :
  exists m',
    shift_orders stop_exchange 1 None stop_mm = (m', Ret (Some []))
    /\ _orders m' = one_sell /\ _fills m' = [].
Proof.
  refine (shift_orders_leaves_stopped_sells stop_exchange 1 None stop_mm
            stop_mm ("s-1", open_sell) [] eq_refl _).
  intros k o [Heq|[]]. injection Heq as _ <-.
  split; [reflexivity|]. exists (300 - 300 * (5 # 100)).
  split; [reflexivity|]. split; vm_compute; discriminate.
Defined.

(** Adopting the extra order of the account a second time changes
    nothing. *)
Lemma refresh_twice_witness :
  orders listing_exchange 1 (fst (orders listing_exchange 1 adopting_mm))
  = (fst (orders listing_exchange 1 adopting_mm),
     Ret (_orders (fst (orders listing_exchange 1 adopting_mm)))).
Proof.
  apply (refresh_twice listing_exchange 1 adopting_mm).
  intros k [<-|[]]. now left.
Defined.

(** The cheapest of the capped registry is the buy at 297. *)
Lemma lowest_open_order_is_cheapest_witness :
  lowest_open_order capped_mm = Some (open_buy "b-3" 297)
  /\ In (open_buy "b-3" 297) (values (_orders capped_mm))
  /\ 297 <= price open_sell.
Proof.
  destruct (lowest_open_order_is_cheapest capped_mm) as [_ Hlow].
  destruct (Hlow (open_buy "b-3" 297) eq_refl) as [Hin Hmin].
  split; [reflexivity|]. split; [exact Hin|].
  exact (Hmin open_sell (or_introl eq_refl)).
Defined.

(** The wall of 60 at the fourth bid puts a buy at 299.81; there is no
    wall of 100. *)
Lemma wall_adjustment_spec_witness :
  (exists j lvl,
     nth_error (bids walled_book) j = Some lvl
     /\ (2 <= j)%nat /\ 50 <= snd lvl
     /\ (29980 # 100) + (1 # 100) = fst lvl + (1 # 100)
     /\ forall i lvl', (i < j)%nat ->
          nth_error (bids walled_book) i = Some lvl' ->
          (2 <= i)%nat -> snd lvl' < 50)
  /\ forall j lvl, nth_error (bids walled_book) j = Some lvl ->
                   (2 <= j)%nat -> snd lvl < 100.
Proof.
  split.
  - exact (wall_adjustment_spec walled_book new_buy 2 50 (1 # 100)).
  - exact (wall_adjustment_spec walled_book new_buy 2 100 (1 # 100)).
Defined.

(** The sell after the buy at 300.00 earns 5.00 at 305.00 and 6.00 at
    306.00. *)
Lemma get_pnl_follows_price_witness :
  get_pnl open_sell (Some 305) = Some (round2 5)
  /\ get_pnl open_sell (Some 306) = Some (round2 6)
  /\ round2 5 <= round2 6.
Proof.
  destruct (get_pnl_follows_price open_sell 305 306) as (_ & _ & Hmono).
  split; [reflexivity|]. split; [reflexivity|].
  refine (Hmono _ _ (round2 5) (round2 6) eq_refl eq_refl);
    vm_compute; discriminate.
Defined.

(** A sell that replaces the open sell takes over the buy as opposite;
    a sell cannot take a sell without opposite. *)
Lemma register_op_order_spec_witness :
  (exists o', register_op_order lone_sell open_sell = inr o'
              /\ op_order o' = Some filled_buy /\ opposite_sides o')
  /\ register_op_order open_sell lone_sell = inl AttributeError.
Proof.
  split.
  - destruct (register_op_order_spec lone_sell open_sell) as (_ & _ & Hok).
    eexists. split; [reflexivity|].
    destruct (Hok _ eq_refl) as (_ & _ & _ & _ & _ & Hsame & Hpaired).
    split; [exact (Hsame eq_refl)|].
    apply Hpaired. simpl. discriminate.
  - apply (proj1 (register_op_order_spec open_sell lone_sell)).
    split; reflexivity.
Defined.
